(** * PeachOS kernel core: kernel.asm, kernel.c and kernel.h

    The kernel entry code ([_start], [kernel_registers]), the text console
    ([terminal_*], [print]), [panic], [kernel_page] and [kernel_main] are
    embedded as interaction trees.  What kernel.c and kernel.asm keep to
    themselves (the cursor, the registers the assembly writes, locals) is
    passed along as a value; everything that leaves them is an [effect] of
    the tree: loads of segment registers, port output, stores through
    [video_mem], stores into objects
    that hardware or other modules read through a pointer, and calls into
    the other modules of the kernel, whose sources are not part of this
    development.  A [machine] gives the effects a meaning and keeps the
    history of a run. *)

From stdpp Require Import base option list gmap.
From ITree Require Import ITree ITreeFacts Props.Leaf Props.Finite.
From Paco Require Import paco.
From Stdlib Require Import ZArith Lia String Ascii.

#[local] Open Scope Z_scope.

(** ** Machine integers *)

(** Conversion of an integer value to [uint16_t]. *)
Definition uint16 (v : Z) : Z := v mod 2 ^ 16.

(** Conversion of an integer value to [uint8_t]. *)
Definition uint8 (v : Z) : Z := v mod 2 ^ 8.

Definition INT_MIN : Z := - 2 ^ 31.
Definition INT_MAX : Z := 2 ^ 31 - 1.

(** The cast [(int)value] on i686: the low 32 bits of the value, read in
    two's complement. *)
Definition int_cast (value : Z) : Z :=
  let w := value mod 2 ^ 32 in
  if w <? 2 ^ 31 then w else w - 2 ^ 32.

(** ** kernel.h *)

Definition VGA_WIDTH : Z := 80.
Definition VGA_HEIGHT : Z := 20.
Definition PEACHOS_MAX_PATH : Z := 108.

(** [#define ERROR_I(value) (int)(value)] *)
Definition ERROR_I (value : Z) : Z := int_cast value.

(** [#define ISERR(value) ((int)value < 0)] *)
Definition ISERR (value : Z) : bool := int_cast value <? 0.

(** [#define ERROR(value) (void* )(value)]: a pointer of the i686 has 32
    bits, so the cast keeps the low 32 bits of the value. *)
Definition ERROR (value : Z) : Z := value mod 2 ^ 32.

(** ** Constants of headers that are not part of the sources *)

(** Modelled from the spec: status.h is missing; section 7 fixes the
    status of success, "0 = OK". *)
Definition PEACHOS_ALL_OK : Z := 0.

(** Modelled from the spec: config.h is missing; section 4.1 has the
    kernel install six descriptors. *)
Definition PEACHOS_TOTAL_GDT_SEGMENTS : Z := 6.

(** Modelled from the spec: config.h is missing; the kernel data
    descriptor of section 4.1 is the third of the table, eight bytes a
    descriptor, which is the selector kernel.asm names [DATA_SEG]. *)
Definition KERNEL_DATA_SELECTOR : Z := 0x10.

(** Modelled from the spec: gdt.h is missing; [struct gdt] lays out one
    segment descriptor of the processor, which has eight bytes. *)
Definition sizeof_struct_gdt : Z := 8.

(** Modelled from the spec: paging.h is missing; section 4.4 names the
    flags present, writable and user bit, which are bits 0, 1 and 2 of a
    page table entry. *)
Definition PAGING_IS_PRESENT : Z := 1.
Definition PAGING_IS_WRITEABLE : Z := 2.
Definition PAGING_ACCESS_FROM_ALL : Z := 4.

(** Modelled from the spec: task/process.h is missing; section 3 bounds
    one command argument string by 512 bytes. *)
Definition COMMAND_ARGUMENT_SIZE : nat := 512.

(** ** Effects: what leaves kernel.c and kernel.asm *)

(** Objects of kernel.c that hardware or other modules reach through a
    pointer: the arrays [gdt_real], the singleton [tss], and the local
    [argument] of [kernel_main]. *)
Inductive object : Type := Gdt_real | Tss | Argument.

(** The fields of those objects that kernel.c assigns. *)
Inductive field : Type := tss_esp0 | tss_ss0 | argument_next.

(** The segment registers that kernel.asm loads. *)
Inductive segment_register : Type := DS | ES | FS | GS | SS.

(** [struct gdt_structured] *)
Record struct_gdt_structured : Type :=
  { base : Z; limit : Z; type : Z }.

Inductive effect : Type :=
  (* instructions of kernel.asm and stores of kernel.c *)
  | mov_sreg (s : segment_register) (selector : Z)   (* mov s, ax *)
  | out (port value : Z)                      (* out port, al *)
  | store16 (address value : Z)               (* video_mem[i] = value *)
  | store_field (f : field) (value : Z)       (* tss.esp0 = value, ... *)
  (* memory/memory.h and string/string.h; memset (o, c) stands for
     memset(&o, c, sizeof(o)), the only form kernel.c uses *)
  | memset (o : object) (c : Z)
  | strcpy (dest : object) (src : string)     (* strcpy(argument.argument, src) *)
  (* gdt/gdt.h, with gdt_real as destination *)
  | gdt_structured_to_gdt (structured : list struct_gdt_structured) (total_entries : Z)
  | gdt_load (size : Z)
  | kheap_init
  | fs_init
  | disk_search_and_init
  | idt_init
  | tss_load (tss_segment : Z)
  | paging_new_4gb (flags : Z)
  | paging_switch (directory : Z)
  | enable_paging
  | isr80h_register_commands
  | keyboard_init
  | process_load_switch (filename : string)   (* writes *process on success *)
  | process_inject_arguments (process : option nat) (root : object)
  | task_run_first_ever_task.

(** What an effect hands back: [paging_new_4gb] a chunk pointer,
    [process_load_switch] its status and the process it stored through
    its second argument, if it stored one; a [struct process*] is the
    slot of the process, [None] for [NULL]. *)
Definition answer (e : effect) : Type :=
  match e with
  | paging_new_4gb _ => Z
  | process_load_switch _ => (Z * option nat)%type
  | _ => unit
  end.

Variant kernelE : Type -> Type :=
  | Do (e : effect) : kernelE (answer e).

#[global] Instance itree_bind {E} : MBind (itree E) :=
  fun A B k t => ITree.bind t k.

Definition call (e : effect) : itree kernelE (answer e) := ITree.trigger (Do e).

(** [for (int i = from; i < to; i++) body], the loop variable and the
    state the body works on made explicit. *)
Fixpoint for_loop {St} (count : nat) (i : Z)
    (body : Z -> St -> itree kernelE St) (s : St) : itree kernelE St :=
  match count with
  | O => Ret s
  | S n => s' ← body i s; for_loop n (i + 1) body s'
  end.

Definition for_range {St} (from to : Z) (body : Z -> St -> itree kernelE St) :
    St -> itree kernelE St :=
  for_loop (Z.to_nat (to - from)) from body.

(** ** State private to kernel.asm and kernel.c *)

(** The general registers kernel.asm writes. *)
Record registers : Type :=
  { eax : Z; ebp : Z; esp : Z }.

(** [video_mem], [terminal_row], [terminal_col] *)
Record terminal : Type :=
  { video_mem : Z; terminal_row : Z; terminal_col : Z }.

Record kernel : Type :=
  { cpu : registers; console : terminal; kernel_chunk : Z }.

Definition set_video_mem (v : Z) (t : terminal) : terminal :=
  {| video_mem := v; terminal_row := terminal_row t; terminal_col := terminal_col t |}.
Definition set_terminal_row (v : Z) (t : terminal) : terminal :=
  {| video_mem := video_mem t; terminal_row := v; terminal_col := terminal_col t |}.
Definition set_terminal_col (v : Z) (t : terminal) : terminal :=
  {| video_mem := video_mem t; terminal_row := terminal_row t; terminal_col := v |}.

Definition set_cpu (r : registers) (k : kernel) : kernel :=
  {| cpu := r; console := console k; kernel_chunk := kernel_chunk k |}.
Definition set_kernel_chunk (c : Z) (k : kernel) : kernel :=
  {| cpu := cpu k; console := console k; kernel_chunk := c |}.

(** ** kernel.asm: instructions *)

Definition CODE_SEG : Z := 0x08.
Definition DATA_SEG : Z := 0x10.

Definition ax (r : registers) : Z := eax r mod 2 ^ 16.
Definition al (r : registers) : Z := eax r mod 2 ^ 8.

Definition set_eax (v : Z) (r : registers) : registers :=
  {| eax := v; ebp := ebp r; esp := esp r |}.

(** [mov ax, imm]: the low word of eax. *)
Definition mov_ax (imm : Z) (r : registers) : registers :=
  set_eax (eax r - ax r + uint16 imm) r.

(** [mov al, imm]: the low byte of eax. *)
Definition mov_al (imm : Z) (r : registers) : registers :=
  set_eax (eax r - al r + uint8 imm) r.

(** [mov ebp, imm] *)
Definition mov_ebp (imm : Z) (r : registers) : registers :=
  {| eax := eax r; ebp := imm mod 2 ^ 32; esp := esp r |}.

(** [mov esp, ebp] *)
Definition mov_esp_ebp (r : registers) : registers :=
  {| eax := eax r; ebp := ebp r; esp := ebp r |}.

(** [mov s, ax]: the processor takes the descriptor of the selector from
    its tables, so the load is an effect. *)
Definition mov_sreg_ax (s : segment_register) (r : registers) : itree kernelE unit :=
  call (mov_sreg s (ax r)).

(** [out port, al] *)
Definition out_al (port : Z) (r : registers) : itree kernelE unit :=
  call (out port (al r)).

(** [[
kernel_registers:
    mov ax, 0x10
    mov ds, ax
    mov es, ax
    mov gs, ax
    mov fs, ax
    ret
]] *)
Definition kernel_registers (r : registers) : itree kernelE registers :=
  let r := mov_ax 0x10 r in
  mov_sreg_ax DS r;;
  mov_sreg_ax ES r;;
  mov_sreg_ax GS r;;
  mov_sreg_ax FS r;;
  Ret r.

(** ** kernel.c: the console *)

Definition TERMINAL_COLOUR : Z := 0x0F.

(** A [char] of the i686 compiler is signed. *)
Definition char_of_ascii (a : ascii) : Z :=
  let n := Z.of_N (N_of_ascii a) in
  if n <? 128 then n else n - 256.

(** Modelled from the spec: string/string.c is missing and the spec
    gives [strlen] no meaning of its own, so it has the one of the C
    library: the count of characters before the first NUL.  A string
    literal ends with a NUL that the Rocq string leaves out. *)
Fixpoint strlen (str : string) : Z :=
  match str with
  | EmptyString => 0
  | String a rest => if char_of_ascii a =? 0 then 0 else 1 + strlen rest
  end.

(** [str[i]] *)
Definition char_at (str : string) (i : Z) : Z :=
  match String.get (Z.to_nat i) str with
  | Some a => char_of_ascii a
  | None => 0
  end.

(** [[
uint16_t terminal_make_char(char c, char colour)
{
    return (colour << 8) | c;
}
]]
    Both operands are promoted to [int] and the result is cut to 16 bits. *)
Definition terminal_make_char (c colour : Z) : Z :=
  uint16 (Z.lor (Z.shiftl colour 8) c).

(** [[
void terminal_putchar(int x, int y, char c, char colour)
{
    video_mem[(y * VGA_WIDTH) + x] = terminal_make_char(c, colour);
}
]]
    [video_mem] points to cells of two bytes. *)
Definition terminal_putchar (x y c colour : Z) (t : terminal) : itree kernelE unit :=
  call (store16 (video_mem t + 2 * ((y * VGA_WIDTH) + x)) (terminal_make_char c colour)).

(** [terminal_backspace], with the [terminal_writechar] it calls as a
    parameter: the two functions call each other. *)
Definition terminal_backspace_with
    (terminal_writechar : Z -> Z -> terminal -> itree kernelE terminal)
    (t : terminal) : itree kernelE terminal :=
  if (terminal_row t =? 0) && (terminal_col t =? 0) then Ret t
  else
    let t :=
      if terminal_col t =? 0
      then set_terminal_col VGA_WIDTH (set_terminal_row (uint16 (terminal_row t - 1)) t)
      else t in
    let t := set_terminal_col (uint16 (terminal_col t - 1)) t in
    t ← terminal_writechar 32 15 t;
    let t := set_terminal_col (uint16 (terminal_col t - 1)) t in
    Ret t.

(** [terminal_writechar], unfolded [depth] calls deep; a chain of calls
    that is deeper never comes back. *)
Fixpoint terminal_writechar_depth (depth : nat) (c colour : Z) (t : terminal) :
    itree kernelE terminal :=
  match depth with
  | O => ITree.spin
  | S depth =>
      if c =? 10 then
        let t := set_terminal_row (uint16 (terminal_row t + 1)) t in
        let t := set_terminal_col 0 t in
        Ret t
      else if c =? 0x08 then
        terminal_backspace_with (terminal_writechar_depth depth) t
      else
        terminal_putchar (terminal_col t) (terminal_row t) c colour t;;
        let t := set_terminal_col (uint16 (terminal_col t + 1)) t in
        let t :=
          if VGA_WIDTH <=? terminal_col t
          then set_terminal_row (uint16 (terminal_row t + 1)) (set_terminal_col 0 t)
          else t in
        let t :=
          if VGA_HEIGHT <=? terminal_row t
          then set_terminal_row 0 t
          else t in
        Ret t
  end.

(** [[
void terminal_writechar(char c, char colour)
{
    if (c == '\n')
    {
        terminal_row += 1;
        terminal_col = 0;
        return;
    }

    if (c == 0x08)
    {
        terminal_backspace();
        return;
    }

    terminal_putchar(terminal_col, terminal_row, c, colour);
    terminal_col += 1;
    if (terminal_col >= VGA_WIDTH)
    {
        terminal_col = 0;
        terminal_row += 1;
    }
    if(terminal_row >= VGA_HEIGHT)
    {
        terminal_row = 0;
    }
}
]]
    The longest chain of calls in the source is [terminal_writechar],
    [terminal_backspace], [terminal_writechar] of a space. *)
Definition terminal_writechar : Z -> Z -> terminal -> itree kernelE terminal :=
  terminal_writechar_depth 2.

(** [[
void terminal_backspace()
{
    if (terminal_row == 0 && terminal_col == 0)
    {
        return;
    }

    if (terminal_col == 0)
    {
        terminal_row -= 1;
        terminal_col = VGA_WIDTH;
    }

    terminal_col -=1;
    terminal_writechar(' ', 15);
    terminal_col -=1;
}
]] *)
Definition terminal_backspace : terminal -> itree kernelE terminal :=
  terminal_backspace_with terminal_writechar.

(** [[
void terminal_initialize()
{
    video_mem = (uint16_t* )(0xB8000);
    terminal_row = 0;
    terminal_col = 0;
    for (int y = 0; y < VGA_HEIGHT; y++)
    {
        for (int x = 0; x < VGA_WIDTH; x++)
        {
            terminal_putchar(x, y, ' ', TERMINAL_COLOUR);
        }
    }
}
]] *)
Definition terminal_initialize (t : terminal) : itree kernelE terminal :=
  let t := set_video_mem 0xB8000 t in
  let t := set_terminal_row 0 t in
  let t := set_terminal_col 0 t in
  for_range 0 VGA_HEIGHT (fun y =>
    for_range 0 VGA_WIDTH (fun x t =>
      terminal_putchar x y 32 TERMINAL_COLOUR t;; Ret t)) t.

(** [[
void _putchar(char character)
{
    terminal_writechar(character, TERMINAL_COLOUR);
}
]] *)
Definition _putchar (character : Z) (t : terminal) : itree kernelE terminal :=
  terminal_writechar character TERMINAL_COLOUR t.

(** [[
void print(const char* str)
{
    size_t len = strlen(str);
    for (size_t i = 0; i < len; i++)
    {
        terminal_writechar(str[i], TERMINAL_COLOUR);
    }
}
]] *)
Definition print (str : string) (t : terminal) : itree kernelE terminal :=
  let len := strlen str in
  for_range 0 len (fun i t => terminal_writechar (char_at str i) TERMINAL_COLOUR t) t.

(** [[
void panic(const char* msg)
{
    print(msg);
    while(1) {}
}
]] *)
Definition panic (msg : string) (t : terminal) : itree kernelE terminal :=
  print msg t;;
  ITree.spin.

(** ** kernel.c: descriptor tables, paging and boot *)

(** A string literal that ends with the escape for a line feed. *)
Definition line (s : string) : string := s ++ String "010" EmptyString.

Section Kernel.

(** The address the linker gives [tss], and [sizeof(tss)]; task/tss.h
    is not part of the sources. *)
Variable tss_address : Z.
Variable sizeof_tss : Z.

(** [[
struct gdt_structured gdt_structured[PEACHOS_TOTAL_GDT_SEGMENTS] = {
    {.base = 0x00, .limit = 0x00, .type = 0x00},                // NULL Segment
    {.base = 0x00, .limit = 0xffffffff, .type = 0x9a},           // Kernel code segment
    {.base = 0x00, .limit = 0xffffffff, .type = 0x92},            // Kernel data segment
    {.base = 0x00, .limit = 0xffffffff, .type = 0xf8},              // User code segment
    {.base = 0x00, .limit = 0xffffffff, .type = 0xf2},             // User data segment
    {.base = (uintptr_t)&tss, .limit=sizeof(tss), .type = 0xE9}      // TSS Segment
};
]]
    Entries of the array that the initializer leaves out are zero. *)
Definition gdt_structured : list struct_gdt_structured :=
  let initializer :=
    [ {| base := 0x00; limit := 0x00; type := 0x00 |};
      {| base := 0x00; limit := 0xffffffff; type := 0x9a |};
      {| base := 0x00; limit := 0xffffffff; type := 0x92 |};
      {| base := 0x00; limit := 0xffffffff; type := 0xf8 |};
      {| base := 0x00; limit := 0xffffffff; type := 0xf2 |};
      {| base := tss_address; limit := sizeof_tss; type := 0xE9 |} ] in
  initializer ++
  replicate (Z.to_nat PEACHOS_TOTAL_GDT_SEGMENTS - List.length initializer)
            {| base := 0; limit := 0; type := 0 |}.

(** [sizeof(gdt_real)] for [struct gdt gdt_real[PEACHOS_TOTAL_GDT_SEGMENTS]] *)
Definition sizeof_gdt_real : Z := PEACHOS_TOTAL_GDT_SEGMENTS * sizeof_struct_gdt.

(** [[
void kernel_page()
{
    kernel_registers();
    paging_switch(kernel_chunk);
}
]] *)
Definition kernel_page (k : kernel) : itree kernelE kernel :=
  r ← kernel_registers (cpu k);
  let k := set_cpu r k in
  call (paging_switch (kernel_chunk k));;
  Ret k.

(** [kernel_main], in the order of its statements.  The locals [process]
    and [res] are bound where the source assigns them; [argument] is an
    [object], since its address is handed to other modules. *)
Definition kernel_main (k : kernel) : itree kernelE kernel :=
  t ← terminal_initialize (console k);
  call (memset Gdt_real 0x00);;
  call (gdt_structured_to_gdt gdt_structured PEACHOS_TOTAL_GDT_SEGMENTS);;
  (* Load the gdt *)
  call (gdt_load (sizeof_gdt_real - 1));;
  (* Initialize the heap *)
  call kheap_init;;
  t ← print (line "Welcome to PeachOS!") t;
  (* Initialize filesystems *)
  call fs_init;;
  (* Search and initialize the disks *)
  call disk_search_and_init;;
  (* Initialize the interrupt descriptor table *)
  call idt_init;;
  (* Setup the TSS *)
  call (memset Tss 0x00);;
  call (store_field tss_esp0 0x600000);;
  call (store_field tss_ss0 KERNEL_DATA_SELECTOR);;
  (* Load the TSS *)
  call (tss_load 0x28);;
  (* Setup paging *)
  chunk ← call (paging_new_4gb
                  (Z.lor (Z.lor PAGING_IS_WRITEABLE PAGING_IS_PRESENT)
                         PAGING_ACCESS_FROM_ALL));
  let k := set_kernel_chunk chunk k in
  (* Switch to kernel paging chunk *)
  call (paging_switch (kernel_chunk k));;
  (* Enable paging *)
  call enable_paging;;
  (* Register the kernel commands *)
  call isr80h_register_commands;;
  (* Initialize all the system keyboards *)
  call keyboard_init;;
  let process : option nat := None in
  '(res, stored) ← call (process_load_switch "0:/blank.elf");
  let process := from_option Some process stored in
  t ← (if negb (res =? PEACHOS_ALL_OK)
       then panic (line "Failed to load blank.elf") t
       else Ret t);
  call (memset Argument 0x00);;
  call (strcpy Argument "Testing!");;
  call (store_field argument_next 0);;
  call (process_inject_arguments process Argument);;
  '(res, stored) ← call (process_load_switch "0:/blank.elf");
  let process := from_option Some process stored in
  t ← (if negb (res =? PEACHOS_ALL_OK)
       then panic (line "Failed to load blank.elf") t
       else Ret t);
  call (strcpy Argument "Abc!");;
  call (store_field argument_next 0);;
  call (process_inject_arguments process Argument);;
  call task_run_first_ever_task;;
  ITree.spin.

(** ** kernel.asm: entry *)

(** [[
_start:
    mov ax, DATA_SEG
    mov ds, ax
    mov es, ax
    mov fs, ax
    mov gs, ax
    mov ss, ax
    mov ebp, 0x00200000
    mov esp, ebp

    ; Remap the master PIC
    mov al, 00010001b
    out 0x20, al ; Tell master PIC

    mov al, 0x20 ; Interrupt 0x20 is where master ISR should start
    out 0x21, al

    mov al, 0x04 ; ICW3
    out 0x21, al

    mov al, 00000001b
    out 0x21, al
    ; End remap of the master PIC

    call kernel_main

    jmp $
]]
    The return address that [call] pushes, and the stack frames of the C
    functions, are below what [registers] describes.  The code is given
    with the function that the label of [call] stands for as [callee]:
    the linker binds the label. *)
Definition _start_calling (callee : kernel -> itree kernelE kernel) (k : kernel) :
    itree kernelE kernel :=
  let r := cpu k in
  let r := mov_ax DATA_SEG r in
  mov_sreg_ax DS r;;
  mov_sreg_ax ES r;;
  mov_sreg_ax FS r;;
  mov_sreg_ax GS r;;
  mov_sreg_ax SS r;;
  let r := mov_ebp 0x00200000 r in
  let r := mov_esp_ebp r in
  let r := mov_al 0x11 r in                 (* 00010001b *)
  out_al 0x20 r;;
  let r := mov_al 0x20 r in
  out_al 0x21 r;;
  let r := mov_al 0x04 r in
  out_al 0x21 r;;
  let r := mov_al 0x01 r in                 (* 00000001b *)
  out_al 0x21 r;;
  callee (set_cpu r k);;
  ITree.spin.

(** [_start], with [kernel_main] as the function it calls. *)
Definition _start (k : kernel) : itree kernelE kernel :=
  _start_calling kernel_main k.

End Kernel.

(** ** The machine: a meaning for the effects *)

(** Modelled from the spec: task/tss.h is missing; of [struct tss] the
    two fields that section 4.1 names and kernel.c assigns. *)
Record struct_tss : Type := { esp0 : Z; ss0 : Z }.

(** Modelled from the spec: task/process.h is missing; section 3 has a
    command argument be one of a forward list of strings of up to 512
    bytes.  The fields are the two kernel.c uses: the character array
    [argument], one byte an element, and [next]. *)
Record struct_command_argument : Type :=
  { argument : list Z; next : Z }.

(** Modelled from the spec: task/process.h is missing; of the process
    of section 3 the file it was loaded from and its argument list. *)
Record process : Type :=
  { filename : string; program_arguments : list string }.

(** The selectors in the segment registers. *)
Record segment_registers : Type :=
  { ds : Z; es : Z; fs : Z; gs : Z; ss : Z }.

Definition load_segment (s : segment_register) (selector : Z)
    (v : segment_registers) : segment_registers :=
  match s with
  | DS => {| ds := selector; es := es v; fs := fs v; gs := gs v; ss := ss v |}
  | ES => {| ds := ds v; es := selector; fs := fs v; gs := gs v; ss := ss v |}
  | FS => {| ds := ds v; es := es v; fs := selector; gs := gs v; ss := ss v |}
  | GS => {| ds := ds v; es := es v; fs := fs v; gs := selector; ss := ss v |}
  | SS => {| ds := ds v; es := es v; fs := fs v; gs := gs v; ss := selector |}
  end.

Record machine : Type :=
  { trace : list effect;            (* the effects so far, oldest first *)
    segments : segment_registers;
    ram : gmap Z Z;                 (* 16-bit cells stored so far, by address *)
    tss : struct_tss;
    argument_object : struct_command_argument;
    task_register : Z;
    cr3 : Z;
    interrupt_flag : bool;
    processes : list process;       (* by slot *)
    current_process : option nat;
    load_results : list Z;          (* status of the process loads to come *)
    new_chunk : Z }.                (* pointer paging_new_4gb hands out *)

Definition log (e : effect) (m : machine) : machine :=
  {| trace := trace m ++ [e]; segments := segments m; ram := ram m; tss := tss m;
     argument_object := argument_object m; task_register := task_register m;
     cr3 := cr3 m; interrupt_flag := interrupt_flag m; processes := processes m;
     current_process := current_process m; load_results := load_results m;
     new_chunk := new_chunk m |}.
Definition set_segments (v : segment_registers) (m : machine) : machine :=
  {| trace := trace m; segments := v; ram := ram m; tss := tss m;
     argument_object := argument_object m; task_register := task_register m;
     cr3 := cr3 m; interrupt_flag := interrupt_flag m; processes := processes m;
     current_process := current_process m; load_results := load_results m;
     new_chunk := new_chunk m |}.
Definition set_ram (v : gmap Z Z) (m : machine) : machine :=
  {| trace := trace m; segments := segments m; ram := v; tss := tss m;
     argument_object := argument_object m; task_register := task_register m;
     cr3 := cr3 m; interrupt_flag := interrupt_flag m; processes := processes m;
     current_process := current_process m; load_results := load_results m;
     new_chunk := new_chunk m |}.
Definition set_tss (v : struct_tss) (m : machine) : machine :=
  {| trace := trace m; segments := segments m; ram := ram m; tss := v;
     argument_object := argument_object m; task_register := task_register m;
     cr3 := cr3 m; interrupt_flag := interrupt_flag m; processes := processes m;
     current_process := current_process m; load_results := load_results m;
     new_chunk := new_chunk m |}.
Definition set_argument_object (v : struct_command_argument) (m : machine) : machine :=
  {| trace := trace m; segments := segments m; ram := ram m; tss := tss m;
     argument_object := v; task_register := task_register m;
     cr3 := cr3 m; interrupt_flag := interrupt_flag m; processes := processes m;
     current_process := current_process m; load_results := load_results m;
     new_chunk := new_chunk m |}.
Definition set_task_register (v : Z) (m : machine) : machine :=
  {| trace := trace m; segments := segments m; ram := ram m; tss := tss m;
     argument_object := argument_object m; task_register := v;
     cr3 := cr3 m; interrupt_flag := interrupt_flag m; processes := processes m;
     current_process := current_process m; load_results := load_results m;
     new_chunk := new_chunk m |}.
Definition set_cr3 (v : Z) (m : machine) : machine :=
  {| trace := trace m; segments := segments m; ram := ram m; tss := tss m;
     argument_object := argument_object m; task_register := task_register m;
     cr3 := v; interrupt_flag := interrupt_flag m; processes := processes m;
     current_process := current_process m; load_results := load_results m;
     new_chunk := new_chunk m |}.
Definition set_processes (v : list process) (current : option nat) (m : machine) : machine :=
  {| trace := trace m; segments := segments m; ram := ram m; tss := tss m;
     argument_object := argument_object m; task_register := task_register m;
     cr3 := cr3 m; interrupt_flag := interrupt_flag m; processes := v;
     current_process := current; load_results := load_results m;
     new_chunk := new_chunk m |}.
Definition set_load_results (v : list Z) (m : machine) : machine :=
  {| trace := trace m; segments := segments m; ram := ram m; tss := tss m;
     argument_object := argument_object m; task_register := task_register m;
     cr3 := cr3 m; interrupt_flag := interrupt_flag m; processes := processes m;
     current_process := current_process m; load_results := v;
     new_chunk := new_chunk m |}.

(** The byte [c] in each of the four bytes of a field. *)
Definition fill32 (c : Z) : Z := uint8 c * 0x01010101.

(** The bytes of a string up to its first NUL, and back. *)
Fixpoint bytes_of_string (s : string) : list Z :=
  match s with
  | EmptyString => []
  | String a rest =>
      if N_of_ascii a =? 0 then [] else Z.of_N (N_of_ascii a) :: bytes_of_string rest
  end%N.

Fixpoint string_of_bytes (l : list Z) : string :=
  match l with
  | [] => EmptyString
  | b :: rest =>
      if b =? 0 then EmptyString else String (ascii_of_N (Z.to_N b)) (string_of_bytes rest)
  end.

(** Modelled from the spec: memory/memory.c is missing and the spec
    gives [memset] no meaning of its own, so it has the one of the C
    library, here over a whole object. *)
Definition do_memset (o : object) (c : Z) (m : machine) : machine :=
  match o with
  | Gdt_real => m
  | Tss => set_tss {| esp0 := fill32 c; ss0 := fill32 c |} m
  | Argument =>
      set_argument_object
        {| argument := replicate COMMAND_ARGUMENT_SIZE (uint8 c); next := fill32 c |} m
  end.

(** Modelled from the spec: string/string.c is missing and the spec
    gives [strcpy] no meaning of its own, so it has the one of the C
    library: the characters of [src] and the closing NUL go to the head
    of the array, the rest of which stays.  Of the objects only
    [argument] starts with a character array. *)
Definition do_strcpy (dest : object) (src : string) (m : machine) : machine :=
  match dest with
  | Argument =>
      let copied := bytes_of_string src ++ [0] in
      set_argument_object
        {| argument := copied ++ drop (List.length copied) (argument (argument_object m));
           next := next (argument_object m) |} m
  | _ => m
  end.

Definition do_store_field (f : field) (v : Z) (m : machine) : machine :=
  match f with
  | tss_esp0 => set_tss {| esp0 := v; ss0 := ss0 (tss m) |} m
  | tss_ss0 => set_tss {| esp0 := esp0 (tss m); ss0 := v |} m
  | argument_next =>
      set_argument_object
        {| argument := argument (argument_object m); next := v |} m
  end.

(** The list of strings that starts at [root].  [argument] is the only
    [struct command_argument] there is, so the list ends after it. *)
Definition read_command_arguments (root : object) (m : machine) : list string :=
  match root with
  | Argument => [string_of_bytes (argument (argument_object m))]
  | _ => []
  end.

(** Modelled from the spec: task/process.c is missing.  Section 4.10:
    [process_load] allocates a process slot, and [process_load_switch]
    "additionally sets the process as current".  Whether a load succeeds
    depends on the disk and the heap, so the status comes from
    [load_results]; with none left a load succeeds. *)
Definition do_process_load_switch (file : string) (m : machine) :
    (Z * option nat) * machine :=
  let status := hd PEACHOS_ALL_OK (load_results m) in
  let m := set_load_results (tl (load_results m)) m in
  if status =? PEACHOS_ALL_OK then
    let slot := List.length (processes m) in
    let p := {| filename := file; program_arguments := [] |} in
    ((status, Some slot), set_processes (processes m ++ [p]) (Some slot) m)
  else ((status, None), m).

(** Modelled from the spec: task/process.c is missing.  Section 4.10:
    [process_inject_arguments(p, args)] "copies the (argc, argv) into a
    kernel buffer": the process keeps strings of its own. *)
Definition do_process_inject_arguments (p : option nat) (root : object) (m : machine) :
    machine :=
  match p with
  | Some slot =>
      let copy := read_command_arguments root m in
      set_processes
        (alter (fun q => {| filename := filename q; program_arguments := copy |})
               slot (processes m))
        (current_process m) m
  | None => m
  end.

(** Modelled from the spec: the modules that the calls enter are
    missing.  Section 4.4 has [paging_switch(dir)] write CR3 and section
    4.1 has [ltr] load the TSS selector; [paging_new_4gb] hands out the
    pointer that the heap gives it, which is [new_chunk]; of the other
    calls the specification says nothing that the console, the objects
    or the registers of this model could show, they only enter the
    trace.  In particular no called module prints.  The loads of
    segment registers, the stores and the port writes are the
    instructions themselves. *)
Definition perform (e : effect) (m : machine) : answer e * machine :=
  let m := log e m in
  match e return answer e * machine with
  | mov_sreg s selector => (tt, set_segments (load_segment s selector (segments m)) m)
  | out _ _ => (tt, m)
  | store16 address value => (tt, set_ram (<[address := value]> (ram m)) m)
  | store_field f value => (tt, do_store_field f value m)
  | memset o c => (tt, do_memset o c m)
  | strcpy dest src => (tt, do_strcpy dest src m)
  | gdt_structured_to_gdt _ _ => (tt, m)
  | gdt_load _ => (tt, m)
  | kheap_init => (tt, m)
  | fs_init => (tt, m)
  | disk_search_and_init => (tt, m)
  | idt_init => (tt, m)
  | tss_load tss_segment => (tt, set_task_register tss_segment m)
  | paging_new_4gb _ => (new_chunk m, m)
  | paging_switch directory => (tt, set_cr3 directory m)
  | enable_paging => (tt, m)
  | isr80h_register_commands => (tt, m)
  | keyboard_init => (tt, m)
  | process_load_switch file => do_process_load_switch file m
  | process_inject_arguments p root => (tt, do_process_inject_arguments p root m)
  | task_run_first_ever_task => (tt, m)
  end.

(** A program on a machine, and one step of it: a silent step, or the
    next effect.  A program that has returned stays as it is. *)
Definition config (R : Type) : Type := (itree kernelE R * machine)%type.

Definition step {R} (c : config R) : config R :=
  let '(t, m) := c in
  match observe t with
  | RetF _ => (t, m)
  | TauF t' => (t', m)
  | VisF ev k =>
      match ev in kernelE T return (T -> itree kernelE R) -> config R with
      | Do e => fun k => let '(a, m') := perform e m in (k a, m')
      end k
  end.

Definition steps {R} (n : nat) (c : config R) : config R := Nat.iter n step c.

(** The value a program has returned, if it has. *)
Definition returned {R} (c : config R) : option R :=
  match observe (fst c) with
  | RetF r => Some r
  | _ => None
  end.

(** The machine when the boot sector jumps to the kernel: nothing has
    happened yet, [tss] is in zeroed memory, the segment registers, the
    interrupt flag and the memory that [argument] will take hold what
    the boot sector left. *)
Definition power_on (selectors : segment_registers) (interrupts : bool)
    (stack : struct_command_argument) (chunk : Z) (loads : list Z) : machine :=
  {| trace := []; segments := selectors; ram := ∅; tss := {| esp0 := 0; ss0 := 0 |};
     argument_object := stack; task_register := 0; cr3 := 0;
     interrupt_flag := interrupts; processes := []; current_process := None;
     load_results := loads; new_chunk := chunk |}.

(** The globals of kernel.c as the image holds them, with the registers
    the boot sector left. *)
Definition kernel_image (r : registers) : kernel :=
  {| cpu := r;
     console := {| video_mem := 0; terminal_row := 0; terminal_col := 0 |};
     kernel_chunk := 0 |}.

(** ** Definitions that the statements below use *)

(** A sequence of [terminal_writechar] calls, one for each character. *)
Fixpoint terminal_writechars (cs : list Z) (colour : Z) (t : terminal) :
    itree kernelE terminal :=
  match cs with
  | [] => Ret t
  | c :: rest => t ← terminal_writechar c colour t; terminal_writechars rest colour t
  end.

(** An address lies in the text buffer of 80 x 20 cells at 0xB8000. *)
Definition in_text_buffer (address : Z) : bool :=
  (0xB8000 <=? address) && (address <? 0xB8000 + 2 * (VGA_WIDTH * VGA_HEIGHT)).

(** The cursor rule in the words of the specification: the column moves
    on by one; when it reaches 80 it becomes 0 and the row moves on by
    one; when the row then is 20 or more it becomes 0.  Both are
    [uint16_t]. *)
Definition advance_cursor (t : terminal) : terminal :=
  let col := uint16 (terminal_col t + 1) in
  let row := terminal_row t in
  let '(col, row) := if 80 <=? col then (0, uint16 (row + 1)) else (col, row) in
  let row := if 20 <=? row then 0 else row in
  {| video_mem := video_mem t; terminal_row := row; terminal_col := col |}.

(** The effects that are calls or stores into objects, that is, all but
    the stores through [video_mem]. *)
Definition is_store16 (e : effect) : bool :=
  match e with store16 _ _ => true | _ => false end.

Definition calls (l : list effect) : list effect :=
  List.filter (fun e => negb (is_store16 e)) l.

(** The cells that show [text], of 7-bit characters, from column [col]
    of row [row] on, in white on black, as stores through [video_mem] at
    0xB8000. *)
Definition shown_at (row col : Z) (text : string) : list effect :=
  imap (fun i b => store16 (0xB8000 + 2 * (row * 80 + (col + Z.of_nat i))) (0x0F00 + b))
       (bytes_of_string text).

(** The stages of boot that section 2 of the specification lists after
    the kernel entry. *)
Inductive boot_stage : Type :=
  | stage_console_init
  | stage_gdt
  | stage_kernel_heap
  | stage_vfs_disk_probe
  | stage_idt
  | stage_tss
  | stage_build_kernel_page_directory
  | stage_enable_paging
  | stage_syscall_table_register
  | stage_keyboard_init
  | stage_load_first_elf
  | stage_iret_user_mode.

#[global] Instance boot_stage_eq_dec : EqDecision boot_stage.
Proof. solve_decision. Defined.

(** The stage a call or a store into an object belongs to.  The console
    has no call of its own in the trace: what it does are stores through
    [video_mem], and [stages_from] tells its init from later output. *)
Definition stage_of (e : effect) : option boot_stage :=
  match e with
  | mov_sreg _ _ | out _ _ | store16 _ _ => None
  | memset Gdt_real _ | gdt_structured_to_gdt _ _ | gdt_load _ => Some stage_gdt
  | kheap_init => Some stage_kernel_heap
  | fs_init | disk_search_and_init => Some stage_vfs_disk_probe
  | idt_init => Some stage_idt
  | memset Tss _ | store_field tss_esp0 _ | store_field tss_ss0 _ | tss_load _ =>
      Some stage_tss
  | paging_new_4gb _ => Some stage_build_kernel_page_directory
  | paging_switch _ | enable_paging => Some stage_enable_paging
  | isr80h_register_commands => Some stage_syscall_table_register
  | keyboard_init => Some stage_keyboard_init
  | process_load_switch _ | memset Argument _ | strcpy _ _
  | store_field argument_next _ | process_inject_arguments _ _ =>
      Some stage_load_first_elf
  | task_run_first_ever_task => Some stage_iret_user_mode
  end.

(** A list with each run of equal neighbours cut to one element. *)
Fixpoint squeeze {A} `{EqDecision A} (l : list A) : list A :=
  match l with
  | [] => []
  | x :: rest =>
      match rest with
      | y :: _ => if decide (x = y) then squeeze rest else x :: squeeze rest
      | [] => [x]
      end
  end.

(** The stage of each effect of a trace that has one.  The stores
    through [video_mem] that come before any call, [called] being false,
    are the init of the console; those that come later are output and
    belong to no stage. *)
Fixpoint stages_from (called : bool) (l : list effect) : list boot_stage :=
  match l with
  | [] => []
  | e :: rest =>
      match e with
      | store16 _ _ =>
          if called then stages_from called rest
          else stage_console_init :: stages_from called rest
      | mov_sreg _ _ | out _ _ => stages_from called rest
      | _ => from_option (fun s => [s]) [] (stage_of e) ++ stages_from true rest
      end
  end.

(** The stages a trace goes through, in order. *)
Definition stages (l : list effect) : list boot_stage :=
  squeeze (stages_from false l).

(** The effects of [terminal_initialize]: a space in white on black to
    each of the 80 x 20 cells, row after row. *)
Definition screen_clear : list effect :=
  List.flat_map
    (fun y => List.map (fun x => store16 (0xB8000 + 2 * (y * 80 + x)) 0x0F20)
                       (seqZ 0 80))
    (seqZ 0 20).

(** The registers with which [_start] calls [kernel_main]. *)
Definition entry_registers (r : registers) : registers :=
  {| eax := eax r - ax r + 0x01; ebp := 0x00200000; esp := 0x00200000 |}.

(** The kernel at its entry on a machine at power on. *)
Definition boot (tss_address sizeof_tss : Z) (r : registers)
    (selectors : segment_registers) (interrupts : bool)
    (stack : struct_command_argument) (chunk : Z) (loads : list Z) : config kernel :=
  (kernel_main tss_address sizeof_tss (kernel_image r),
   power_on selectors interrupts stack chunk loads).

(** [terminal_initialize] and then one [terminal_writechar] for each
    character, in white on black, on a machine at power on. *)
Definition console_session (cs : list Z) : config terminal :=
  (t ← terminal_initialize {| video_mem := 0; terminal_row := 0; terminal_col := 0 |};
   terminal_writechars cs TERMINAL_COLOUR t,
   power_on {| ds := 0; es := 0; fs := 0; gs := 0; ss := 0 |} false
            {| argument := []; next := 0 |} 0 []).

(** A character that [terminal_writechar] puts on the screen. *)
Definition printable (c : Z) : Prop := c <> 10 /\ c <> 0x08.

(** The cursor is on the screen that [terminal_initialize] set up. *)
Definition on_screen (t : terminal) : Prop :=
  video_mem t = 0xB8000 /\
  0 <= terminal_col t < VGA_WIDTH /\ 0 <= terminal_row t < VGA_HEIGHT.

(** An effect that is a store into the text buffer. *)
Definition stored_on_screen (e : effect) : Prop :=
  match e with
  | store16 address _ => in_text_buffer address = true
  | _ => False
  end.

(** Configurations that show the same node on the same machine. *)
Definition same_node {R} (c1 c2 : config R) : Prop :=
  observe c1.1 = observe c2.1 /\ c1.2 = c2.2.

(** The order of boot in the words of section 2 of the specification. *)
Definition spec_boot_order : list boot_stage :=
  [ stage_console_init; stage_gdt; stage_kernel_heap; stage_vfs_disk_probe;
    stage_idt; stage_tss; stage_build_kernel_page_directory; stage_enable_paging;
    stage_syscall_table_register; stage_keyboard_init; stage_load_first_elf;
    stage_iret_user_mode ].

(** ** Definitions for the properties of whole programs *)

(** A program does the effects [l], in this order and whatever they
    answer, and then returns [r]. *)
Fixpoint performs {R} (l : list effect) (t : itree kernelE R) (r : R) : Prop :=
  match l with
  | [] => observe t = RetF r
  | e :: rest => exists k, observe t = VisF (Do e) k /\ forall a, performs rest (k a) r
  end.

(** The machine after the effects [l]. *)
Definition perform_all (l : list effect) (m : machine) : machine :=
  foldl (fun m e => (perform e m).2) m l.

(** The cells after the stores among the effects [l]. *)
Definition store_all (l : list effect) (cells : gmap Z Z) : gmap Z Z :=
  foldl (fun cells e =>
           match e with store16 a v => <[a := v]> cells | _ => cells end)
        cells l.

(** A program that is one silent step away from a silent step onto
    itself: the loops [while(1) {}] and [jmp $]. *)
Definition hangs {R} (c : config R) : Prop :=
  exists t', observe c.1 = TauF t' /\ observe t' = TauF t'.

(** The console as [terminal_initialize] leaves it. *)
Definition origin : terminal :=
  {| video_mem := 0xB8000; terminal_row := 0; terminal_col := 0 |}.

(** The cells of the screen are numbered row after row, the way
    [terminal_putchar] indexes [video_mem]. *)
Definition cursor_cell (t : terminal) : Z := terminal_row t * VGA_WIDTH + terminal_col t.

Definition cursor_at (cell : Z) : terminal :=
  {| video_mem := 0xB8000;
     terminal_row := cell / VGA_WIDTH;
     terminal_col := cell mod VGA_WIDTH |}.

Definition cell_address (cell : Z) : Z := 0xB8000 + 2 * cell.

(** The stores that put the characters [cs] into the cells from [cell]
    on, going on at cell 0 after the last cell. *)
Definition written_cells (cell : Z) (cs : list Z) (colour : Z) : list effect :=
  imap (fun k c =>
          store16 (cell_address ((cell + Z.of_nat k) mod (VGA_WIDTH * VGA_HEIGHT)))
                  (terminal_make_char c colour))
       cs.

(** The characters of a C string: those before its first NUL. *)
Fixpoint c_string (str : string) : list Z :=
  match str with
  | EmptyString => []
  | String a rest =>
      if char_of_ascii a =? 0 then [] else char_of_ascii a :: c_string rest
  end.

(** The values of a [char]. *)
Definition char_values : list Z := seqZ (-128) 256.

(** A trace in which the kernel has left for user mode. *)
Definition is_task_run_first_ever_task (e : effect) : bool :=
  match e with task_run_first_ever_task => true | _ => false end.

Definition enters_user_mode (l : list effect) : bool :=
  List.existsb is_task_run_first_ever_task l.

(** The effects of [_start] before it calls [kernel_main]. *)
Definition entry_effects : list effect :=
  [ mov_sreg DS 0x10; mov_sreg ES 0x10; mov_sreg FS 0x10; mov_sreg GS 0x10;
    mov_sreg SS 0x10; out 0x20 0x11; out 0x21 0x20; out 0x21 0x04; out 0x21 0x01 ].

(** What a cell holds when the rows of the screen show the texts
    [rows], of 7-bit characters, from their first column on, and spaces
    everywhere else, all in white on black. *)
Definition screen_rows (rows : list string) (cell : Z) : Z :=
  match rows !! Z.to_nat (cell / VGA_WIDTH) with
  | Some text =>
      match bytes_of_string text !! Z.to_nat (cell mod VGA_WIDTH) with
      | Some b => 0x0F00 + b
      | None => 0x0F20
      end
  | None => 0x0F20
  end.

(** * Properties *)

(** ** Machine integers *)

Lemma int_cast_sign_bit (value : Z) : (int_cast value <? 0) = Z.testbit value 31.
Proof.
  rewrite Z.testbit_odd, Z.shiftr_div_pow2 by lia.
  unfold int_cast.
  destruct (Z.odd (value / 2 ^ 31)) eqn:Hodd.
  - apply Z.odd_spec in Hodd as [q Hq].
    apply Z.ltb_lt.
    assert (Hlow : 2 ^ 31 <= value mod 2 ^ 32) by
      (change (2 ^ 32) with (2 * 2 ^ 31); change (2 ^ 31) with 2147483648 in *;
       Z.div_mod_to_equations; lia).
    destruct (value mod 2 ^ 32 <? 2 ^ 31) eqn:Hlt; [apply Z.ltb_lt in Hlt; lia|].
    pose proof (Z.mod_pos_bound value (2 ^ 32)). lia.
  - assert (Heven : Z.even (value / 2 ^ 31) = true) by
      (rewrite <- Z.negb_odd, Hodd; reflexivity).
    apply Z.even_spec in Heven as [q Hq].
    apply Z.ltb_ge.
    assert (Hlow : value mod 2 ^ 32 < 2 ^ 31) by
      (change (2 ^ 32) with (2 * 2 ^ 31); change (2 ^ 31) with 2147483648 in *;
       Z.div_mod_to_equations; lia).
    apply Z.ltb_lt in Hlow. rewrite Hlow.
    pose proof (Z.mod_pos_bound value (2 ^ 32)). lia.
Qed.

Lemma int_cast_id (value : Z) : INT_MIN <= value <= INT_MAX -> int_cast value = value.
Proof.
  unfold INT_MIN, INT_MAX, int_cast. intros Hrange.
  destruct (Z.ltb_spec (value mod 2 ^ 32) (2 ^ 31)) as [Hlt | Hge];
    change (2 ^ 32) with 4294967296 in *; change (2 ^ 31) with 2147483648 in *;
    Z.div_mod_to_equations; lia.
Qed.

(** The sign bit decides [ISERR], whatever the width of the value. *)
Lemma ISERR_sign_bit (value : Z) : ISERR value = Z.testbit value 31.
Proof. apply int_cast_sign_bit. Qed.

(** C5. For a value that is a 32-bit signed integer, [ISERR] holds
    exactly when the value is negative; the status 0 and the positive
    values are no errors.  For a value of any type, a pointer for one,
    [ISERR] is the sign bit of its low 32 bits. *)
Theorem ISERR_negative_int (value : Z) :
  INT_MIN <= value <= INT_MAX ->
  (ISERR value = true <-> value < 0) /\
  (0 <= value -> ISERR value = false) /\
  (forall w : Z, ISERR w = Z.testbit w 31).
Proof.
  intros Hrange. unfold ISERR at 1 2.
  rewrite (int_cast_id value Hrange).
  split; [apply Z.ltb_lt|]. split; [|apply ISERR_sign_bit].
  intros Hpos. apply Z.ltb_ge, Hpos.
Qed.

Lemma ISERR_negative_int_witness :
  INT_MIN <= -6 <= INT_MAX /\
  (ISERR (-6) = true <-> -6 < 0) /\
  (0 <= -6 -> ISERR (-6) = false) /\
  (forall w : Z, ISERR w = Z.testbit w 31).
Proof.
  split; [unfold INT_MIN, INT_MAX; lia|].
  apply (ISERR_negative_int (-6)). unfold INT_MIN, INT_MAX. lia.
Defined.

(** ** kernel.asm *)

Lemma ax_mov_ax (imm : Z) (r : registers) : ax (mov_ax imm r) = uint16 imm.
Proof.
  unfold mov_ax, uint16; cbn; unfold ax; cbn.
  change (2 ^ 16) with 65536. Z.div_mod_to_equations. lia.
Qed.

Lemma al_mov_al (imm : Z) (r : registers) : al (mov_al imm r) = uint8 imm.
Proof.
  unfold mov_al, uint8; cbn; unfold al; cbn.
  change (2 ^ 8) with 256. Z.div_mod_to_equations. lia.
Qed.

(** The low byte of eax is written four times over the low word. *)
Lemma eax_after_remap (e : Z) :
  let e1 := e - e mod 2 ^ 16 + uint16 DATA_SEG in
  let e2 := e1 - e1 mod 2 ^ 8 + uint8 0x11 in
  let e3 := e2 - e2 mod 2 ^ 8 + uint8 0x20 in
  let e4 := e3 - e3 mod 2 ^ 8 + uint8 0x04 in
  e4 - e4 mod 2 ^ 8 + uint8 0x01 = e - e mod 2 ^ 16 + 1.
Proof.
  cbv zeta. change (uint16 DATA_SEG) with 16. change (uint8 17) with 17.
  change (uint8 32) with 32. change (uint8 4) with 4. change (uint8 1) with 1.
  change (2 ^ 16) with 65536. change (2 ^ 8) with 256.
  Z.div_mod_to_equations. lia.
Qed.

Lemma registers_at_kernel_main (r : registers) :
  mov_al 0x01 (mov_al 0x04 (mov_al 0x20 (mov_al 0x11
    (mov_esp_ebp (mov_ebp 0x00200000 (mov_ax DATA_SEG r))))))
  = entry_registers r.
Proof.
  destruct r as [e b s].
  cbv [entry_registers mov_al mov_esp_ebp mov_ebp mov_ax set_eax al ax eax ebp esp].
  f_equal. apply (eax_after_remap e).
Qed.

(** [_start] is the five loads of segment registers, the four port
    writes, then [kernel_main] on the entry registers, then the loop on
    itself. *)
Lemma _start_unfold (tss_address sizeof_tss : Z) (k : kernel) :
  _start tss_address sizeof_tss k ≅
    (call (mov_sreg DS 0x10);;
     call (mov_sreg ES 0x10);;
     call (mov_sreg FS 0x10);;
     call (mov_sreg GS 0x10);;
     call (mov_sreg SS 0x10);;
     call (out 0x20 0x11);;
     call (out 0x21 0x20);;
     call (out 0x21 0x04);;
     call (out 0x21 0x01);;
     kernel_main tss_address sizeof_tss (set_cpu (entry_registers (cpu k)) k);;
     ITree.spin).
Proof.
  unfold _start, _start_calling, mov_sreg_ax, out_al. cbv zeta.
  rewrite !ax_mov_ax, !al_mov_al, registers_at_kernel_main.
  change (uint16 DATA_SEG) with 16.
  change (uint8 17) with 17. change (uint8 32) with 32.
  change (uint8 4) with 4. change (uint8 1) with 1.
  reflexivity.
Qed.

Lemma _start_first_steps (tss_address sizeof_tss : Z) (k : kernel) (m : machine) :
  trace (steps 9 (_start tss_address sizeof_tss k, m)).2 =
    trace m ++ [mov_sreg DS 0x10; mov_sreg ES 0x10; mov_sreg FS 0x10;
                mov_sreg GS 0x10; mov_sreg SS 0x10;
                out 0x20 0x11; out 0x21 0x20; out 0x21 0x04; out 0x21 0x01] /\
  segments (steps 9 (_start tss_address sizeof_tss k, m)).2 =
    {| ds := 0x10; es := 0x10; fs := 0x10; gs := 0x10; ss := 0x10 |}.
Proof.
  unfold _start, _start_calling, mov_sreg_ax, out_al. cbv zeta. rewrite !ax_mov_ax, !al_mov_al.
  generalize (kernel_main tss_address sizeof_tss). intros rest.
  cbn. rewrite <- !app_assoc. split; reflexivity.
Qed.

(** C8. Before [kernel_main] is called, [_start] writes 0x11 to port
    0x20 and then 0x20, 0x04 and 0x01 to port 0x21: on any machine the
    four port writes follow the loads of the segment registers, and
    [kernel_main] and the final loop are what follows them. *)
Theorem _start_remaps_master_pic (tss_address sizeof_tss : Z) (k : kernel) (m : machine) :
  trace (steps 9 (_start tss_address sizeof_tss k, m)).2 =
    trace m ++ [mov_sreg DS 0x10; mov_sreg ES 0x10; mov_sreg FS 0x10;
                mov_sreg GS 0x10; mov_sreg SS 0x10;
                out 0x20 0x11; out 0x21 0x20; out 0x21 0x04; out 0x21 0x01] /\
  exists k',
    _start tss_address sizeof_tss k ≅
      (call (mov_sreg DS 0x10);;
       call (mov_sreg ES 0x10);;
       call (mov_sreg FS 0x10);;
       call (mov_sreg GS 0x10);;
       call (mov_sreg SS 0x10);;
       call (out 0x20 0x11);;
       call (out 0x21 0x20);;
       call (out 0x21 0x04);;
       call (out 0x21 0x01);;
       kernel_main tss_address sizeof_tss k';;
       ITree.spin).
Proof.
  split.
  - apply _start_first_steps.
  - eexists. apply _start_unfold.
Qed.

(** [_start] with any function in the place of [kernel_main]: the five
    loads of segment registers, the four port writes, then the call with
    the registers of [entry_registers], then the loop on itself. *)
Lemma _start_calling_unfold (callee : kernel -> itree kernelE kernel) (k : kernel) :
  _start_calling callee k ≅
    (call (mov_sreg DS 0x10);;
     call (mov_sreg ES 0x10);;
     call (mov_sreg FS 0x10);;
     call (mov_sreg GS 0x10);;
     call (mov_sreg SS 0x10);;
     call (out 0x20 0x11);;
     call (out 0x21 0x20);;
     call (out 0x21 0x04);;
     call (out 0x21 0x01);;
     callee (set_cpu (entry_registers (cpu k)) k);;
     ITree.spin).
Proof.
  unfold _start_calling, mov_sreg_ax, out_al. cbv zeta.
  rewrite !ax_mov_ax, !al_mov_al, registers_at_kernel_main.
  change (uint16 DATA_SEG) with 16.
  change (uint8 17) with 17. change (uint8 32) with 32.
  change (uint8 4) with 4. change (uint8 1) with 1.
  reflexivity.
Qed.

(** C9. [_start] loads 0x10 into DS, ES, FS, GS and SS and calls
    [kernel_main] with 0x00200000 in EBP and ESP: on any machine the
    five segment registers hold 0x10 when the call is next, and only
    the port writes of the remap lie between the loads and the call.
    [_start] is [_start_calling] of [kernel_main], and whatever function
    stands at the label of the call, it is entered with EBP and ESP at
    0x00200000, the high word of EAX, [video_mem], the cursor and
    [kernel_chunk] as they were, and 0x0001 in AX. *)
Theorem _start_entry_state (tss_address sizeof_tss : Z) (k : kernel) (m : machine) :
  segments (steps 9 (_start tss_address sizeof_tss k, m)).2 =
    {| ds := DATA_SEG; es := DATA_SEG; fs := DATA_SEG; gs := DATA_SEG;
       ss := DATA_SEG |} /\
  _start tss_address sizeof_tss k =
    _start_calling (kernel_main tss_address sizeof_tss) k /\
  forall callee : kernel -> itree kernelE kernel,
    _start_calling callee k ≅
      (call (mov_sreg DS DATA_SEG);;
       call (mov_sreg ES DATA_SEG);;
       call (mov_sreg FS DATA_SEG);;
       call (mov_sreg GS DATA_SEG);;
       call (mov_sreg SS DATA_SEG);;
       call (out 0x20 0x11);;
       call (out 0x21 0x20);;
       call (out 0x21 0x04);;
       call (out 0x21 0x01);;
       callee {| cpu := {| eax := eax (cpu k) - eax (cpu k) mod 2 ^ 16 + 0x0001;
                           ebp := 0x00200000;
                           esp := 0x00200000 |};
                 console := console k;
                 kernel_chunk := kernel_chunk k |};;
       ITree.spin).
Proof.
  split; [apply _start_first_steps|]. split; [reflexivity|].
  intros callee. apply _start_calling_unfold.
Qed.

(** ** kernel_page *)

(** C7. [kernel_page] first loads 0x10, the kernel data selector, into
    DS, ES, GS and FS and then calls [paging_switch] on [kernel_chunk];
    these are its effects, in this order.  When it has returned the four
    data segment registers hold the selector and, [paging_switch]
    writing CR3, CR3 holds the directory of the chunk. *)
Theorem kernel_page_selectors_and_directory (k : kernel) (m : machine) :
  trace (steps 5 (kernel_page k, m)).2 =
    trace m ++ [mov_sreg DS KERNEL_DATA_SELECTOR; mov_sreg ES KERNEL_DATA_SELECTOR;
                mov_sreg GS KERNEL_DATA_SELECTOR; mov_sreg FS KERNEL_DATA_SELECTOR;
                paging_switch (kernel_chunk k)] /\
  (exists k', returned (steps 5 (kernel_page k, m)) = Some k' /\
              console k' = console k /\ kernel_chunk k' = kernel_chunk k) /\
  segments (steps 5 (kernel_page k, m)).2 =
    {| ds := KERNEL_DATA_SELECTOR; es := KERNEL_DATA_SELECTOR;
       fs := KERNEL_DATA_SELECTOR; gs := KERNEL_DATA_SELECTOR;
       ss := ss (segments m) |} /\
  cr3 (steps 5 (kernel_page k, m)).2 = kernel_chunk k.
Proof.
  unfold kernel_page, kernel_registers, mov_sreg_ax. cbv zeta.
  rewrite !ax_mov_ax. change (uint16 16) with KERNEL_DATA_SELECTOR.
  unfold mbind, itree_bind. cbn. rewrite <- !app_assoc.
  split; [reflexivity|]. split; [eexists; split; [reflexivity|]; split; reflexivity|].
  split; reflexivity.
Qed.

(** ** The console *)

(** The equations of the two functions that call each other. *)
Lemma terminal_backspace_eq (t : terminal) :
  terminal_backspace t =
    if (terminal_row t =? 0) && (terminal_col t =? 0) then Ret t
    else
      let t :=
        if terminal_col t =? 0
        then set_terminal_col VGA_WIDTH (set_terminal_row (uint16 (terminal_row t - 1)) t)
        else t in
      let t := set_terminal_col (uint16 (terminal_col t - 1)) t in
      t ← terminal_writechar 32 15 t;
      let t := set_terminal_col (uint16 (terminal_col t - 1)) t in
      Ret t.
Proof. reflexivity. Qed.

Lemma terminal_writechar_eq (c colour : Z) (t : terminal) :
  terminal_writechar c colour t =
    if c =? 10 then
      Ret (set_terminal_col 0 (set_terminal_row (uint16 (terminal_row t + 1)) t))
    else if c =? 0x08 then terminal_backspace t
    else
      terminal_putchar (terminal_col t) (terminal_row t) c colour t;;
      let t := set_terminal_col (uint16 (terminal_col t + 1)) t in
      let t :=
        if VGA_WIDTH <=? terminal_col t
        then set_terminal_row (uint16 (terminal_row t + 1)) (set_terminal_col 0 t)
        else t in
      let t :=
        if VGA_HEIGHT <=? terminal_row t
        then set_terminal_row 0 t
        else t in
      Ret t.
Proof.
  unfold terminal_writechar, terminal_backspace. cbn [terminal_writechar_depth].
  destruct (c =? 10); [reflexivity|].
  destruct (c =? 8); reflexivity.
Qed.

Lemma advance_cursor_eq (t : terminal) :
  (let t := set_terminal_col (uint16 (terminal_col t + 1)) t in
   let t :=
     if VGA_WIDTH <=? terminal_col t
     then set_terminal_row (uint16 (terminal_row t + 1)) (set_terminal_col 0 t)
     else t in
   if VGA_HEIGHT <=? terminal_row t then set_terminal_row 0 t else t)
  = advance_cursor t.
Proof.
  unfold advance_cursor, VGA_WIDTH, VGA_HEIGHT. cbv zeta.
  cbn [set_terminal_col set_terminal_row terminal_col terminal_row video_mem].
  destruct (80 <=? uint16 (terminal_col t + 1));
    cbn [set_terminal_col set_terminal_row terminal_col terminal_row video_mem].
  - destruct (20 <=? uint16 (terminal_row t + 1)); reflexivity.
  - destruct (20 <=? terminal_row t); reflexivity.
Qed.

(** On the screen the rule of [advance_cursor] is: one column on, from
    column 79 to the head of the next row, from the last row to row 0. *)
Lemma advance_cursor_on_screen (t : terminal) :
  0 <= terminal_col t < VGA_WIDTH -> 0 <= terminal_row t < VGA_HEIGHT ->
  advance_cursor t =
    {| video_mem := video_mem t;
       terminal_row :=
         if terminal_col t =? 79
         then (if terminal_row t =? 19 then 0 else terminal_row t + 1)
         else terminal_row t;
       terminal_col := if terminal_col t =? 79 then 0 else terminal_col t + 1 |}.
Proof.
  unfold VGA_WIDTH, VGA_HEIGHT, advance_cursor, uint16. intros Hcol Hrow.
  rewrite (Z.mod_small (terminal_col t + 1)) by lia.
  destruct (Z.leb_spec 80 (terminal_col t + 1)) as [Hwrap | Hstay];
    destruct (Z.eqb_spec (terminal_col t) 79) as [H79 | H79]; try lia.
  - rewrite (Z.mod_small (terminal_row t + 1)) by lia.
    destruct (Z.leb_spec 20 (terminal_row t + 1));
      destruct (Z.eqb_spec (terminal_row t) 19); try lia; reflexivity.
  - destruct (Z.leb_spec 20 (terminal_row t)); [lia | reflexivity].
Qed.

Lemma chars_spec (c : Z) : -128 <= c < 128 -> In c char_values.
Proof. intros H. apply list_elem_of_In, elem_of_seqZ. lia. Qed.

(** The cell that [terminal_make_char] makes of a [char] and a colour
    from 0 to 127, by its bytes: the byte of the character below, and
    above it the colour, or 0xFF if the character is negative. *)
Lemma terminal_make_char_value (c colour : Z) :
  -128 <= c < 128 -> 0 <= colour < 128 ->
  terminal_make_char c colour = 256 * (if c <? 0 then 0xFF else colour) + uint8 c.
Proof.
  intros Hc Hcolour.
  assert (Hall :
    List.forallb (fun c => List.forallb (fun colour =>
      (colour <? 0) ||
      (terminal_make_char c colour =?
         256 * (if c <? 0 then 0xFF else colour) + uint8 c))
      char_values) char_values = true) by (vm_compute; reflexivity).
  rewrite forallb_forall in Hall. specialize (Hall c (chars_spec c Hc)).
  rewrite forallb_forall in Hall.
  specialize (Hall colour (chars_spec colour ltac:(lia))).
  apply orb_true_iff in Hall as [Hneg | Hall]; [apply Z.ltb_lt in Hneg; lia|].
  apply Z.eqb_eq. exact Hall.
Qed.

(** C10. For a character that is neither the line feed nor 0x08,
    [terminal_writechar] stores the character at the cursor and moves
    the cursor by the rule of [advance_cursor]; the store is its only
    effect, so every other cell keeps its content and no line moves up.
    From the last cell of the screen the cursor goes to the first.
    For a [char] and a colour from 0 to 127 the stored cell is given by
    its bytes: the low byte is the byte of the character; the high byte
    is the colour if the character is not negative, and 0xFF if it is. *)
Theorem terminal_writechar_printable (c colour : Z) (t : terminal) (m : machine) :
  c <> 10 -> c <> 0x08 ->
  let cell := video_mem t + 2 * (terminal_row t * 80 + terminal_col t) in
  terminal_writechar c colour t ≅
    (call (store16 cell (terminal_make_char c colour));; Ret (advance_cursor t)) /\
  returned (steps 1 (terminal_writechar c colour t, m)) = Some (advance_cursor t) /\
  trace (steps 1 (terminal_writechar c colour t, m)).2 =
    trace m ++ [store16 cell (terminal_make_char c colour)] /\
  ram (steps 1 (terminal_writechar c colour t, m)).2 =
    <[cell := terminal_make_char c colour]> (ram m) /\
  (0 <= terminal_col t < 80 -> 0 <= terminal_row t < 20 ->
   advance_cursor t =
     {| video_mem := video_mem t;
        terminal_row :=
          if terminal_col t =? 79
          then (if terminal_row t =? 19 then 0 else terminal_row t + 1)
          else terminal_row t;
        terminal_col := if terminal_col t =? 79 then 0 else terminal_col t + 1 |}) /\
  (-128 <= c < 128 -> 0 <= colour < 128 ->
   let high := if c <? 0 then 0xFF else colour in
   terminal_writechar c colour t ≅
     (call (store16 cell (256 * high + c mod 256));; Ret (advance_cursor t)) /\
   trace (steps 1 (terminal_writechar c colour t, m)).2 =
     trace m ++ [store16 cell (256 * high + c mod 256)] /\
   ram (steps 1 (terminal_writechar c colour t, m)).2 !! cell =
     Some (256 * high + c mod 256) /\
   forall other : Z, other <> cell ->
     ram (steps 1 (terminal_writechar c colour t, m)).2 !! other = ram m !! other).
Proof.
  intros Hlf Hbs cell.
  rewrite terminal_writechar_eq.
  apply Z.eqb_neq in Hlf, Hbs. rewrite Hlf, Hbs.
  cbv zeta. rewrite advance_cursor_eq.
  unfold terminal_putchar, VGA_WIDTH. fold cell.
  split; [reflexivity|]. split; [reflexivity|]. split; [reflexivity|].
  split; [reflexivity|].
  split; [apply advance_cursor_on_screen|].
  intros Hc Hcolour.
  change (c mod 256) with (uint8 c).
  rewrite <- (terminal_make_char_value c colour Hc Hcolour).
  split; [reflexivity|]. split; [reflexivity|].
  split.
  - change (ram (steps 1 (call (store16 cell (terminal_make_char c colour));;
                          Ret (advance_cursor t), m)).2)
      with (<[cell := terminal_make_char c colour]> (ram m)).
    apply lookup_insert_eq.
  - intros other Hother.
    change (ram (steps 1 (call (store16 cell (terminal_make_char c colour));;
                          Ret (advance_cursor t), m)).2)
      with (<[cell := terminal_make_char c colour]> (ram m)).
    apply lookup_insert_ne. congruence.
Qed.

Lemma terminal_writechar_printable_witness :
  65 <> 10 /\ 65 <> 0x08 /\
  terminal_writechar 65 15
    {| video_mem := 0xB8000; terminal_row := 19; terminal_col := 79 |} ≅
    (call (store16 0xB8C7E 0x0F41);;
     Ret {| video_mem := 0xB8000; terminal_row := 0; terminal_col := 0 |}) /\
  returned
    (steps 1
       (terminal_writechar 65 15
          {| video_mem := 0xB8000; terminal_row := 19; terminal_col := 79 |},
        power_on {| ds := 0; es := 0; fs := 0; gs := 0; ss := 0 |} false
                 {| argument := []; next := 0 |} 0 [])) =
    Some {| video_mem := 0xB8000; terminal_row := 0; terminal_col := 0 |} /\
  ram
    (steps 1
       (terminal_writechar 65 15
          {| video_mem := 0xB8000; terminal_row := 19; terminal_col := 79 |},
        power_on {| ds := 0; es := 0; fs := 0; gs := 0; ss := 0 |} false
                 {| argument := []; next := 0 |} 0 [])).2 !! 0xB8C7E =
    Some 0x0F41.
Proof.
  split; [lia|]. split; [lia|].
  destruct (terminal_writechar_printable 65 15
              {| video_mem := 0xB8000; terminal_row := 19; terminal_col := 79 |}
              (power_on {| ds := 0; es := 0; fs := 0; gs := 0; ss := 0 |} false
                 {| argument := []; next := 0 |} 0 []))
    as (Htree & Hret & _ & _ & _ & Hcell); [lia | lia |].
  destruct Hcell as (_ & _ & Hram & _); [lia | lia |].
  split; [exact Htree|]. split; [exact Hret | exact Hram].
Defined.

(** ** Runs *)

Lemma steps_settled {R} (c0 c : config R) (N : nat) :
  steps N c0 = c -> step c = c -> forall n, (N <= n)%nat -> steps n c0 = c.
Proof.
  intros Hrun Hfix n Hn.
  replace n with ((n - N) + N)%nat by lia.
  unfold steps. rewrite Nat.iter_add. fold (steps N c0). rewrite Hrun.
  induction (n - N)%nat as [|j IH]; [reflexivity|].
  rewrite Nat.iter_succ, IH. exact Hfix.
Qed.

(** A program that has come to a silent step onto itself stays there,
    and the machine with it. *)
Lemma steps_stuck {R} (c0 : config R) (N : nat) :
  observe (steps N c0).1 = TauF (steps N c0).1 ->
  forall n, (N <= n)%nat -> steps n c0 = steps N c0.
Proof.
  intros Hloop. apply steps_settled; [reflexivity|].
  destruct (steps N c0) as [t m]. cbn in *. rewrite Hloop. reflexivity.
Qed.

Lemma steps_succ_first {R} (n : nat) (c : config R) : steps (S n) c = steps n (step c).
Proof. unfold steps. apply Nat.iter_succ_r. Qed.

Lemma step_same_node {R} (c1 c2 : config R) :
  same_node c1 c2 -> same_node (step c1) (step c2).
Proof.
  destruct c1 as [t1 m1], c2 as [t2 m2]. intros [Hobs Hm]. cbn in Hobs, Hm. subst m2.
  unfold step. destruct (observe t1) as [r | t' | X ev k] eqn:H1; rewrite <- Hobs.
  - split; cbn; [congruence | reflexivity].
  - split; reflexivity.
  - split; reflexivity.
Qed.

Lemma steps_same_node {R} (n : nat) (c1 c2 : config R) :
  same_node c1 c2 -> same_node (steps n c1) (steps n c2).
Proof.
  revert c1 c2. induction n as [|n IH]; intros c1 c2 Hsame; [exact Hsame|].
  rewrite !steps_succ_first. apply IH, step_same_node, Hsame.
Qed.

Lemma same_node_returned {R} (c1 c2 : config R) :
  same_node c1 c2 -> returned c1 = returned c2.
Proof. intros [Hobs _]. unfold returned. rewrite Hobs. reflexivity. Qed.

(** [panic] has no leaf: whatever the other modules answer, it does not
    return. *)
Lemma panic_never_returns (msg : string) (t r : terminal) : ~ Leaf r (panic msg t).
Proof.
  unfold panic. intros Hleaf.
  apply Leaf_bind_inv in Hleaf as (t' & _ & Hspin).
  exact (spin_empty_Leaf _ _ _ Hspin).
Qed.

(** ** The console and the text buffer *)

Lemma advance_cursor_stays_on_screen (t : terminal) :
  on_screen t -> on_screen (advance_cursor t).
Proof.
  intros (Hmem & Hcol & Hrow). rewrite advance_cursor_on_screen by assumption.
  unfold on_screen, VGA_WIDTH, VGA_HEIGHT in *. cbn.
  destruct (Z.eqb_spec (terminal_col t) 79);
    destruct (Z.eqb_spec (terminal_row t) 19); lia.
Qed.

Lemma cursor_cell_in_text_buffer (t : terminal) :
  on_screen t ->
  in_text_buffer (video_mem t + 2 * (terminal_row t * 80 + terminal_col t)) = true.
Proof.
  unfold on_screen, in_text_buffer, VGA_WIDTH, VGA_HEIGHT.
  intros (-> & Hcol & Hrow).
  apply andb_true_iff. split; [apply Z.leb_le | apply Z.ltb_lt]; lia.
Qed.

(** What the console does right: characters other than the line feed and
    0x08 are stored inside the text buffer, from a cursor on the screen
    to a cursor on the screen. *)
Lemma printable_writes_stay_on_screen (cs : list Z) (colour : Z) (t : terminal)
    (m : machine) :
  Forall printable cs -> on_screen t ->
  exists t' new,
    returned (steps (List.length cs) (terminal_writechars cs colour t, m)) = Some t' /\
    on_screen t' /\
    trace (steps (List.length cs) (terminal_writechars cs colour t, m)).2 =
      trace m ++ new /\
    Forall stored_on_screen new.
Proof.
  intros Hcs. revert t m.
  induction Hcs as [|c rest [Hlf Hbs] _ IH]; intros t m Hscreen.
  - exists t, []. cbn. rewrite app_nil_r. auto.
  - set (t1 := advance_cursor t).
    set (cell := video_mem t + 2 * (terminal_row t * 80 + terminal_col t)).
    set (m1 := (perform (store16 cell (terminal_make_char c colour)) m).2).
    assert (Hnode : same_node
              (step (terminal_writechars (c :: rest) colour t, m))
              (terminal_writechars rest colour t1, m1)).
    { cbn [terminal_writechars]. rewrite terminal_writechar_eq.
      apply Z.eqb_neq in Hlf, Hbs. rewrite Hlf, Hbs. cbv zeta.
      rewrite advance_cursor_eq. split; reflexivity. }
    destruct (IH t1 m1 (advance_cursor_stays_on_screen t Hscreen))
      as (t' & new & Hret & Hscreen' & Htrace & Hnew).
    exists t', (store16 cell (terminal_make_char c colour) :: new).
    cbn [List.length]. rewrite steps_succ_first.
    pose proof (steps_same_node (List.length rest) _ _ Hnode) as Hsame.
    rewrite (same_node_returned _ _ Hsame), (proj2 Hsame).
    split; [exact Hret|]. split; [exact Hscreen'|]. split.
    + rewrite Htrace. cbn. rewrite <- app_assoc. reflexivity.
    + constructor; [apply cursor_cell_in_text_buffer, Hscreen | exact Hnew].
Qed.

(** C1. Not every store of the console stays inside the text buffer.
    After [terminal_initialize] and twenty line feeds the cursor is in
    row 20, which is no row of the screen, and the next character is
    stored at cell 1600, the first address past the text buffer.  After
    a line feed and one 0x08 the cursor is in column 65535, and the next
    character is stored 65535 cells to the right of the head of row 1.
    So it does not hold that all stores of all sessions are on screen. *)
Theorem terminal_writechar_stores_off_screen :
  returned (steps 1600 (console_session (replicate 20 10))) =
    Some {| video_mem := 0xB8000; terminal_row := 20; terminal_col := 0 |} /\
  trace (steps 1601 (console_session (replicate 20 10 ++ [65]))).2 =
    screen_clear ++ [store16 (0xB8000 + 2 * (20 * 80 + 0)) 0x0F41] /\
  in_text_buffer (0xB8000 + 2 * (20 * 80 + 0)) = false /\
  returned (steps 1601 (console_session [10; 0x08])) =
    Some {| video_mem := 0xB8000; terminal_row := 1; terminal_col := 65535 |} /\
  trace (steps 1602 (console_session [10; 0x08; 65])).2 =
    screen_clear ++ [store16 (0xB8000 + 2 * (0 * 80 + 79)) 0x0F20;
                     store16 (0xB8000 + 2 * (1 * 80 + 65535)) 0x0F41] /\
  in_text_buffer (0xB8000 + 2 * (1 * 80 + 65535)) = false /\
  ~ (forall (cs : list Z) (n : nat),
       Forall stored_on_screen (trace (steps n (console_session cs)).2)).
Proof.
  assert (Hfeeds :
    trace (steps 1601 (console_session (replicate 20 10 ++ [65]))).2 =
      screen_clear ++ [store16 (0xB8000 + 2 * (20 * 80 + 0)) 0x0F41])
    by (vm_compute; reflexivity).
  split; [vm_compute; reflexivity|]. split; [exact Hfeeds|].
  split; [reflexivity|]. split; [vm_compute; reflexivity|].
  split; [vm_compute; reflexivity|]. split; [reflexivity|].
  intros Hall. specialize (Hall (replicate 20 10 ++ [65]) 1601%nat).
  rewrite Hfeeds in Hall. apply Forall_app in Hall as [_ Hlast].
  apply Forall_cons in Hlast as [Hoff _]. discriminate Hoff.
Qed.

(** ** Boot *)

Lemma boot_run (tss_address sizeof_tss : Z) (r : registers)
    (selectors : segment_registers) (interrupts : bool)
    (stack : struct_command_argument) (chunk : Z) (rest : list Z) (n : nat) :
  (1646 <= n)%nat ->
  steps n (boot tss_address sizeof_tss r selectors interrupts stack chunk
             (PEACHOS_ALL_OK :: PEACHOS_ALL_OK :: rest)) =
  steps 1646 (boot tss_address sizeof_tss r selectors interrupts stack chunk
                (PEACHOS_ALL_OK :: PEACHOS_ALL_OK :: rest)).
Proof. apply steps_stuck. reflexivity. Qed.

Lemma boot_never_returns (tss_address sizeof_tss : Z) (r : registers)
    (selectors : segment_registers) (interrupts : bool)
    (stack : struct_command_argument) (chunk : Z) (rest : list Z) :
  returned (steps 1646 (boot tss_address sizeof_tss r selectors interrupts stack chunk
                          (PEACHOS_ALL_OK :: PEACHOS_ALL_OK :: rest))) = None.
Proof. vm_compute. reflexivity. Qed.

(** C2. With both loads of the first program successful, [kernel_main]
    first clears the screen, which is all [terminal_initialize] does to
    the machine, and then goes through the stages of section 2 in their
    order, each of them once: its calls and stores into objects are the
    listed ones, the last of them [task_run_first_ever_task], after
    which it loops. *)
Theorem kernel_main_boot_order (tss_address sizeof_tss : Z) (r : registers)
    (selectors : segment_registers) (interrupts : bool)
    (stack : struct_command_argument) (chunk : Z) (rest : list Z)
    (n : nat) :
  (1646 <= n)%nat ->
  let c := steps n (boot tss_address sizeof_tss r selectors interrupts stack chunk
                      (PEACHOS_ALL_OK :: PEACHOS_ALL_OK :: rest)) in
  returned c = None /\
  take 1600 (trace c.2) = screen_clear /\
  calls (trace c.2) =
    [ memset Gdt_real 0;
      gdt_structured_to_gdt (gdt_structured tss_address sizeof_tss) 6;
      gdt_load 47;
      kheap_init;
      fs_init;
      disk_search_and_init;
      idt_init;
      memset Tss 0; store_field tss_esp0 0x600000; store_field tss_ss0 0x10;
      tss_load 0x28;
      paging_new_4gb 7;
      paging_switch chunk;
      enable_paging;
      isr80h_register_commands;
      keyboard_init;
      process_load_switch "0:/blank.elf";
      memset Argument 0; strcpy Argument "Testing!"; store_field argument_next 0;
      process_inject_arguments (Some 0%nat) Argument;
      process_load_switch "0:/blank.elf";
      strcpy Argument "Abc!"; store_field argument_next 0;
      process_inject_arguments (Some 1%nat) Argument;
      task_run_first_ever_task ] /\
  stages (trace c.2) = spec_boot_order.
Proof.
  intros Hn c. subst c. rewrite boot_run by exact Hn.
  split; [apply boot_never_returns|].
  split; [vm_compute; reflexivity|].
  split; vm_compute; reflexivity.
Qed.

Lemma kernel_main_boot_order_witness :
  (1646 <= 1700)%nat /\
  stages (trace (steps 1700
    (boot 0x105000 104
          {| eax := 0; ebp := 0; esp := 0 |}
          {| ds := 0; es := 0; fs := 0; gs := 0; ss := 0 |}
          true {| argument := []; next := 0 |} 0x1000000
          [PEACHOS_ALL_OK; PEACHOS_ALL_OK])).2)
  = spec_boot_order.
Proof.
  split; [lia|].
  apply (kernel_main_boot_order 0x105000 104
           {| eax := 0; ebp := 0; esp := 0 |}
           {| ds := 0; es := 0; fs := 0; gs := 0; ss := 0 |}
           true {| argument := []; next := 0 |} 0x1000000 [] 1700).
  lia.
Defined.

(** C3. [gdt_structured] has the six descriptors: null, kernel code,
    kernel data, user code and user data with base 0 and limit
    0xffffffff, and the TSS with the address and the size of [tss] and
    type 0xE9.  [kernel_main] hands the table with its six entries to
    [gdt_structured_to_gdt] and loads the outcome.  When it comes to
    [tss_load], [tss.esp0] is 0x600000 and [tss.ss0] the kernel data
    selector, and the task register is still to be loaded; one step on,
    the selector 0x28 is in it.  No load status matters for this. *)
Theorem gdt_and_tss_installed (tss_address sizeof_tss : Z) (r : registers)
    (selectors : segment_registers) (interrupts : bool)
    (stack : struct_command_argument) (chunk : Z) (loads : list Z) :
  gdt_structured tss_address sizeof_tss =
    [ {| base := 0; limit := 0; type := 0 |};
      {| base := 0; limit := 0xffffffff; type := 0x9a |};
      {| base := 0; limit := 0xffffffff; type := 0x92 |};
      {| base := 0; limit := 0xffffffff; type := 0xf8 |};
      {| base := 0; limit := 0xffffffff; type := 0xf2 |};
      {| base := tss_address; limit := sizeof_tss; type := 0xE9 |} ] /\
  (let c := steps 1629 (boot tss_address sizeof_tss r selectors interrupts stack chunk loads) in
   calls (trace c.2) =
     [ memset Gdt_real 0;
       gdt_structured_to_gdt (gdt_structured tss_address sizeof_tss)
                             PEACHOS_TOTAL_GDT_SEGMENTS;
       gdt_load (PEACHOS_TOTAL_GDT_SEGMENTS * sizeof_struct_gdt - 1);
       kheap_init; fs_init; disk_search_and_init; idt_init;
       memset Tss 0; store_field tss_esp0 0x600000;
       store_field tss_ss0 KERNEL_DATA_SELECTOR ] /\
   tss c.2 = {| esp0 := 0x600000; ss0 := KERNEL_DATA_SELECTOR |} /\
   task_register c.2 = 0) /\
  (let c := steps 1630 (boot tss_address sizeof_tss r selectors interrupts stack chunk loads) in
   last (trace c.2) = Some (tss_load 0x28) /\
   tss c.2 = {| esp0 := 0x600000; ss0 := KERNEL_DATA_SELECTOR |} /\
   task_register c.2 = 0x28).
Proof.
  split; [reflexivity|].
  split; cbv zeta; (split; [vm_compute; reflexivity|]);
    split; vm_compute; reflexivity.
Qed.

Lemma Leaf_mbind_inv {E A B} (t : itree E A) (k : A -> itree E B) (b : B) :
  Leaf b (t ≫= k) -> exists a, Leaf b (k a).
Proof. intros H. apply Leaf_bind_inv in H as (a & _ & H). exists a. exact H. Qed.

(** [kernel_main] has no leaf either: it ends in [panic] or in its own
    loop. *)
Lemma kernel_main_never_returns (tss_address sizeof_tss : Z) (k r : kernel) :
  ~ Leaf r (kernel_main tss_address sizeof_tss k).
Proof.
  unfold kernel_main. intros H.
  repeat (apply Leaf_mbind_inv in H; destruct H as [? H]; cbv zeta in H;
          try match type of H with
              | Leaf _ (let '(_, _) := ?x in _) => destruct x
              end).
  exact (spin_empty_Leaf _ _ _ H).
Qed.

(** No effect of kernel.c or kernel.asm is an instruction that sets or
    clears the interrupt flag, so no run changes it. *)
Lemma perform_interrupt_flag (e : effect) (m : machine) :
  interrupt_flag (perform e m).2 = interrupt_flag m.
Proof.
  destruct e as [s v | port v | a v | f v | o c | dest src | g total | size
                | | | | | selector | flags | directory | | | | file | p root | ];
    try reflexivity.
  - destruct f; reflexivity.
  - destruct o; reflexivity.
  - destruct dest; reflexivity.
  - unfold perform, do_process_load_switch.
    destruct (hd PEACHOS_ALL_OK (load_results (log _ m)) =? PEACHOS_ALL_OK);
      reflexivity.
  - destruct p; reflexivity.
Qed.

Lemma step_interrupt_flag {R} (c : config R) :
  interrupt_flag (step c).2 = interrupt_flag c.2.
Proof.
  destruct c as [t m]. unfold step.
  destruct (observe t) as [r | t' | X ev k]; try reflexivity.
  destruct ev as [e].
  pose proof (perform_interrupt_flag e m) as Hflag.
  destruct (perform e m) as [a m']. exact Hflag.
Qed.

Lemma steps_interrupt_flag {R} (n : nat) (c : config R) :
  interrupt_flag (steps n c).2 = interrupt_flag c.2.
Proof.
  induction n as [|n IH]; [reflexivity|].
  unfold steps in *. rewrite Nat.iter_succ, step_interrupt_flag. exact IH.
Qed.

Lemma failed_boot_run (tss_address sizeof_tss : Z) (r : registers)
    (selectors : segment_registers) (interrupts : bool)
    (stack : struct_command_argument) (chunk status : Z) (rest : list Z) (n : nat) :
  status <> PEACHOS_ALL_OK ->
  (1661 <= n)%nat ->
  steps n (boot tss_address sizeof_tss r selectors interrupts stack chunk (status :: rest)) =
  steps 1661 (boot tss_address sizeof_tss r selectors interrupts stack chunk (status :: rest)).
Proof.
  intros Hstatus. apply steps_stuck.
  destruct status as [|p|p]; [contradiction | reflexivity | reflexivity].
Qed.

(** C4. When the first load of "0:/blank.elf" gives a status other than
    [PEACHOS_ALL_OK], the run of [kernel_main] goes on with the cells
    of the message of [panic] on the row under the welcome line and
    with nothing else: from then on the machine stays as it is and
    [kernel_main] has not returned, no process exists and no further
    call is made.  [panic] itself never returns, whatever message it is
    given and whatever the other modules do, and no run of it changes
    the interrupt flag. *)
Theorem failed_load_panics (tss_address sizeof_tss : Z) (r : registers)
    (selectors : segment_registers) (interrupts : bool)
    (stack : struct_command_argument) (chunk status : Z)
    (rest : list Z) (n : nat) :
  status <> PEACHOS_ALL_OK ->
  (1661 <= n)%nat ->
  (let c := steps n (boot tss_address sizeof_tss r selectors interrupts stack chunk
                       (status :: rest)) in
   returned c = None /\
   drop 1635 (trace c.2) =
     process_load_switch "0:/blank.elf" :: shown_at 1 0 "Failed to load blank.elf" /\
   calls (trace c.2) =
     [ memset Gdt_real 0;
       gdt_structured_to_gdt (gdt_structured tss_address sizeof_tss) 6;
       gdt_load 47; kheap_init; fs_init; disk_search_and_init; idt_init;
       memset Tss 0; store_field tss_esp0 0x600000; store_field tss_ss0 0x10;
       tss_load 0x28; paging_new_4gb 7; paging_switch chunk; enable_paging;
       isr80h_register_commands; keyboard_init;
       process_load_switch "0:/blank.elf" ] /\
   processes c.2 = [] /\
   interrupt_flag c.2 = interrupts) /\
  (forall (msg : string) (t r' : terminal), ~ Leaf r' (panic msg t)) /\
  (forall (msg : string) (t : terminal) (m : machine) (j : nat),
     interrupt_flag (steps j (panic msg t, m)).2 = interrupt_flag m).
Proof.
  intros Hstatus Hn. split; [|split].
  - intros c. subst c. rewrite failed_boot_run by assumption.
    destruct status as [|p|p]; [contradiction| |];
      (split; [reflexivity|]); (split; [vm_compute; reflexivity|]);
      (split; [vm_compute; reflexivity|]); split; vm_compute; reflexivity.
  - intros msg t r'. apply panic_never_returns.
  - intros msg t m j. apply (steps_interrupt_flag j (panic msg t, m)).
Qed.

Lemma failed_load_panics_witness :
  -1 <> PEACHOS_ALL_OK /\ (1661 <= 2000)%nat /\
  returned
    (steps 2000
       (boot 0x105000 104
             {| eax := 0; ebp := 0; esp := 0 |}
             {| ds := 0; es := 0; fs := 0; gs := 0; ss := 0 |}
             true {| argument := []; next := 0 |} 0x1000000 [-1])) = None.
Proof.
  split; [discriminate|]. split; [lia|].
  apply (failed_load_panics 0x105000 104
           {| eax := 0; ebp := 0; esp := 0 |}
           {| ds := 0; es := 0; fs := 0; gs := 0; ss := 0 |}
           true {| argument := []; next := 0 |} 0x1000000 (-1) [] 2000);
    [discriminate | lia].
Defined.

(** C6. With both loads successful [kernel_main] loads "0:/blank.elf"
    twice, into the process slots 0 and 1, and injects into each of them
    the list that starts at [argument].  After the first injection
    process 0 has the one argument "Testing!", which is what [argument]
    then holds.  In the end [argument] holds "Abc!", process 1 has the
    one argument "Abc!", and process 0 still has "Testing!". *)
Theorem two_processes_keep_their_arguments (tss_address sizeof_tss : Z)
    (r : registers) (selectors : segment_registers) (interrupts : bool)
    (stack : struct_command_argument)
    (chunk : Z) (rest : list Z) (n : nat) :
  (1646 <= n)%nat ->
  (let c := steps 1640 (boot tss_address sizeof_tss r selectors interrupts stack chunk
                          (PEACHOS_ALL_OK :: PEACHOS_ALL_OK :: rest)) in
   last (trace c.2) = Some (process_inject_arguments (Some 0%nat) Argument) /\
   read_command_arguments Argument c.2 = ["Testing!"%string] /\
   processes c.2 =
     [ {| filename := "0:/blank.elf"; program_arguments := ["Testing!"%string] |} ]) /\
  (let c := steps n (boot tss_address sizeof_tss r selectors interrupts stack chunk
                       (PEACHOS_ALL_OK :: PEACHOS_ALL_OK :: rest)) in
   drop 16 (calls (trace c.2)) =
     [ process_load_switch "0:/blank.elf";
       memset Argument 0; strcpy Argument "Testing!"; store_field argument_next 0;
       process_inject_arguments (Some 0%nat) Argument;
       process_load_switch "0:/blank.elf";
       strcpy Argument "Abc!"; store_field argument_next 0;
       process_inject_arguments (Some 1%nat) Argument;
       task_run_first_ever_task ] /\
   read_command_arguments Argument c.2 = ["Abc!"%string] /\
   processes c.2 =
     [ {| filename := "0:/blank.elf"; program_arguments := ["Testing!"%string] |};
       {| filename := "0:/blank.elf"; program_arguments := ["Abc!"%string] |} ] /\
   current_process c.2 = Some 1%nat).
Proof.
  intros Hn. split.
  - cbv zeta. split; [vm_compute; reflexivity|].
    split; vm_compute; reflexivity.
  - intros c. subst c. rewrite boot_run by exact Hn.
    split; [vm_compute; reflexivity|]. split; [vm_compute; reflexivity|].
    split; vm_compute; reflexivity.
Qed.

Lemma two_processes_keep_their_arguments_witness :
  (1646 <= 1700)%nat /\
  processes (steps 1700
    (boot 0x105000 104
          {| eax := 0; ebp := 0; esp := 0 |}
          {| ds := 0; es := 0; fs := 0; gs := 0; ss := 0 |}
          true {| argument := []; next := 0 |} 0x1000000
          [PEACHOS_ALL_OK; PEACHOS_ALL_OK])).2 =
    [ {| filename := "0:/blank.elf"; program_arguments := ["Testing!"%string] |};
      {| filename := "0:/blank.elf"; program_arguments := ["Abc!"%string] |} ].
Proof.
  split; [lia|].
  apply (two_processes_keep_their_arguments 0x105000 104
           {| eax := 0; ebp := 0; esp := 0 |}
           {| ds := 0; es := 0; fs := 0; gs := 0; ss := 0 |}
           true {| argument := []; next := 0 |} 0x1000000 [] 1700).
  lia.
Defined.

(** ** Programs as sequences of effects *)

Lemma observe_mbind {E A B} (t : itree E A) (k : A -> itree E B) :
  observe (t ≫= k) =
    match observe t with
    | RetF r => observe (k r)
    | TauF t' => TauF (t' ≫= k)
    | VisF e h => VisF e (fun x => h x ≫= k)
    end.
Proof.
  unfold mbind, itree_bind. rewrite observe_bind. destruct (observe t); reflexivity.
Qed.

Lemma performs_observe {R} (l : list effect) (t1 t2 : itree kernelE R) (r : R) :
  observe t1 = observe t2 -> performs l t1 r -> performs l t2 r.
Proof. destruct l; cbn; intros <-; auto. Qed.

Lemma performs_ret {R} (r : R) : performs [] (Ret r : itree kernelE R) r.
Proof. reflexivity. Qed.

Lemma performs_bind {A B} (l1 l2 : list effect) (t : itree kernelE A)
    (k : A -> itree kernelE B) (a : A) (b : B) :
  performs l1 t a -> performs l2 (k a) b -> performs (l1 ++ l2) (t ≫= k) b.
Proof.
  revert t. induction l1 as [|e l1 IH]; intros t H1 H2.
  - cbn in H1. apply (performs_observe l2 (k a)); [|exact H2].
    rewrite observe_mbind, H1. reflexivity.
  - destruct H1 as (h & Hobs & Hrest). exists (fun x => h x ≫= k). split.
    + rewrite observe_mbind, Hobs. reflexivity.
    + intros x. apply IH; [apply Hrest | exact H2].
Qed.

Lemma performs_call_bind {R} (e : effect) (l : list effect)
    (k : answer e -> itree kernelE R) (r : R) :
  (forall a, performs l (k a) r) -> performs (e :: l) (call e ≫= k) r.
Proof.
  intros Hk. exists (fun x => Ret x ≫= k). split; [reflexivity|].
  intros a. apply (performs_observe l (k a)); [reflexivity | apply Hk].
Qed.

Lemma performs_call_ret {R} (e : effect) (r : R) : performs [e] (call e;; Ret r) r.
Proof. apply performs_call_bind. intros _. reflexivity. Qed.

(** A loop whose body leaves the state as it is. *)
Lemma performs_for_loop {St} (ef : Z -> list effect) (body : Z -> St -> itree kernelE St)
    (s : St) (count : nat) (i : Z) :
  (forall j, performs (ef j) (body j s) s) ->
  performs (List.flat_map ef (seqZ i (Z.of_nat count))) (for_loop count i body s) s.
Proof.
  intros Hbody. revert i. induction count as [|count IH]; intros i.
  - reflexivity.
  - rewrite Nat2Z.inj_succ, seqZ_cons by lia. cbn [List.flat_map for_loop].
    replace (Z.pred (Z.succ (Z.of_nat count))) with (Z.of_nat count) by lia.
    apply (performs_bind _ _ _ _ s); [apply Hbody|].
    replace (Z.succ i) with (i + 1) by lia. apply IH.
Qed.

(** Programs that are bisimilar perform the same. *)
Lemma eqitF_inv_Do {R} (sim : itree kernelE R -> itree kernelE R -> Prop)
    (o1 o2 : itree' kernelE R) :
  eqitF eq false false id sim o1 o2 ->
  match o1 with
  | RetF r => o2 = RetF r
  | TauF _ => True
  | VisF ev k1 =>
      match ev in kernelE T return (T -> itree kernelE R) -> Prop with
      | Do e => fun k1 => exists k2, o2 = VisF (Do e) k2 /\ forall a, sim (k1 a) (k2 a)
      end k1
  end.
Proof.
  intros H. destruct H as [r1 r2 REL | | u ev k1 k2 REL | | o1 t2 CHECK _].
  - congruence.
  - exact I.
  - destruct ev as [e]. exists k2. split; [reflexivity | exact REL].
  - exact I.
  - discriminate CHECK.
Qed.

Lemma performs_eq_itree {R} (l : list effect) (t1 t2 : itree kernelE R) (r : R) :
  t1 ≅ t2 -> performs l t1 r -> performs l t2 r.
Proof.
  revert t1 t2. induction l as [|e l IH]; intros t1 t2 Heq H; punfold Heq;
    apply eqitF_inv_Do in Heq.
  - cbn in H. rewrite H in Heq. exact Heq.
  - destruct H as (k1 & Hobs & Hrest). rewrite Hobs in Heq.
    destruct Heq as (k2 & Hobs2 & Hk). exists k2. split; [exact Hobs2|].
    intros a. apply (IH (k1 a)); [|apply Hrest].
    destruct (Hk a) as [Hsim | []]. exact Hsim.
Qed.

(** On a machine, a program that performs [l] takes one step for each
    effect and then has returned. *)
Lemma performs_steps {R} (l : list effect) (t : itree kernelE R) (r : R) (m : machine) :
  performs l t r ->
  returned (steps (List.length l) (t, m)) = Some r /\
  (steps (List.length l) (t, m)).2 = perform_all l m.
Proof.
  revert t m. induction l as [|e l IH]; intros t m H.
  - cbn in H. unfold returned. cbn. rewrite H. auto.
  - destruct H as (k & Hobs & Hrest). cbn [List.length]. rewrite steps_succ_first.
    assert (Hstep : step (t, m) = (k (perform e m).1, (perform e m).2)).
    { unfold step. rewrite Hobs. destruct (perform e m); reflexivity. }
    rewrite Hstep. apply IH, Hrest.
Qed.

Lemma performs_steps_bind {A B} (l : list effect) (t : itree kernelE A) (a : A)
    (k : A -> itree kernelE B) (m : machine) :
  performs l t a ->
  same_node (steps (List.length l) (t ≫= k, m)) (k a, perform_all l m).
Proof.
  revert t m. induction l as [|e l IH]; intros t m H.
  - cbn in H. split; [|reflexivity]. cbn. rewrite observe_mbind, H. reflexivity.
  - destruct H as (h & Hobs & Hrest). cbn [List.length]. rewrite steps_succ_first.
    assert (Hstep : step (t ≫= k, m) = (h (perform e m).1 ≫= k, (perform e m).2)).
    { unfold step. rewrite observe_mbind, Hobs. destruct (perform e m); reflexivity. }
    rewrite Hstep. apply IH, Hrest.
Qed.

Lemma performs_steps_bind2 {A B R} (l : list effect) (t : itree kernelE A) (a : A)
    (k1 : A -> itree kernelE B) (k2 : B -> itree kernelE R) (m : machine) :
  performs l t a ->
  same_node (steps (List.length l) ((t ≫= k1) ≫= k2, m)) (k1 a ≫= k2, perform_all l m).
Proof.
  revert t m. induction l as [|e l IH]; intros t m H.
  - cbn in H. split; [|reflexivity]. cbn. rewrite !observe_mbind, H. reflexivity.
  - destruct H as (h & Hobs & Hrest). cbn [List.length]. rewrite steps_succ_first.
    assert (Hstep : step ((t ≫= k1) ≫= k2, m) =
                    ((h (perform e m).1 ≫= k1) ≫= k2, (perform e m).2)).
    { unfold step. rewrite !observe_mbind, Hobs. destruct (perform e m); reflexivity. }
    rewrite Hstep. apply IH, Hrest.
Qed.

(** What an effect does to the trace and to the cells. *)
Ltac perform_cases e :=
  destruct e as [s v | port v | a v | f v | o c | dest src | g total | size
                | | | | | selector | flags | directory | | | | file | p root | ];
  try reflexivity;
  [ destruct f; reflexivity
  | destruct o; reflexivity
  | destruct dest; reflexivity
  | unfold perform, do_process_load_switch;
    match goal with |- context [if ?b then _ else _] => destruct b end; reflexivity
  | destruct p; reflexivity ].

Lemma trace_perform (e : effect) (m : machine) : trace (perform e m).2 = trace m ++ [e].
Proof. perform_cases e. Qed.

Lemma ram_perform (e : effect) (m : machine) :
  ram (perform e m).2 = store_all [e] (ram m).
Proof. perform_cases e. Qed.

Lemma trace_perform_all (l : list effect) (m : machine) :
  trace (perform_all l m) = trace m ++ l.
Proof.
  revert m. induction l as [|e l IH]; intros m; cbn.
  - symmetry. apply app_nil_r.
  - fold (perform_all l (perform e m).2).
    rewrite IH, trace_perform, <- app_assoc. reflexivity.
Qed.

Lemma ram_perform_all (l : list effect) (m : machine) :
  ram (perform_all l m) = store_all l (ram m).
Proof.
  revert m. induction l as [|e l IH]; intros m; [reflexivity|].
  cbn. fold (perform_all l (perform e m).2). rewrite IH, ram_perform. reflexivity.
Qed.

Lemma store_all_snoc (l : list effect) (e : effect) (cells : gmap Z Z) :
  store_all (l ++ [e]) cells = store_all [e] (store_all l cells).
Proof. apply foldl_app. Qed.

Lemma store_all_untouched (l : list effect) (cells : gmap Z Z) (a : Z) :
  (forall v, ~ In (store16 a v) l) -> store_all l cells !! a = cells !! a.
Proof.
  induction l as [|e l IH] using rev_ind; intros Hfree; [reflexivity|].
  rewrite store_all_snoc.
  assert (Hl : store_all l cells !! a = cells !! a).
  { apply IH. intros v Hin. apply (Hfree v), in_or_app. left. exact Hin. }
  destruct e as [ | | a' v' | | | | | | | | | | | | | | | | | | ]; try exact Hl.
  cbn. rewrite lookup_insert_ne; [exact Hl|].
  intros ->. apply (Hfree v'), in_or_app. right. left. reflexivity.
Qed.

Lemma store_all_same_value (l : list effect) (cells : gmap Z Z) (a v : Z) :
  (forall a' v', In (store16 a' v') l -> v' = v) ->
  In (store16 a v) l -> store_all l cells !! a = Some v.
Proof.
  induction l as [|e l IH] using rev_ind; intros Hval Hin; [destruct Hin|].
  rewrite store_all_snoc.
  assert (Hl : In (store16 a v) l -> store_all l cells !! a = Some v).
  { apply IH. intros a' v' H. apply (Hval a'), in_or_app. left. exact H. }
  apply in_app_or in Hin as [Hin | [-> | []]].
  - destruct e as [ | | a' v' | | | | | | | | | | | | | | | | | | ];
      try (apply Hl, Hin).
    cbn. destruct (Z.eq_dec a' a) as [-> | Hne].
    + rewrite lookup_insert_eq. f_equal.
      apply (Hval a), in_or_app. right. left. reflexivity.
    + rewrite lookup_insert_ne by exact Hne. apply Hl, Hin.
  - cbn. apply lookup_insert_eq.
Qed.

(** ** The screen: [terminal_putchar] and [terminal_initialize] *)

Lemma flat_map_singleton {A B} (f : A -> B) (l : list A) :
  List.flat_map (fun x => [f x]) l = List.map f l.
Proof. induction l; cbn; congruence. Qed.

Lemma terminal_initialize_performs (t : terminal) :
  performs screen_clear (terminal_initialize t) origin.
Proof.
  unfold terminal_initialize, for_range, screen_clear. cbv zeta.
  change (set_terminal_col 0 (set_terminal_row 0 (set_video_mem 753664 t))) with origin.
  change (Z.to_nat (VGA_HEIGHT - 0)) with 20%nat.
  change (Z.to_nat (VGA_WIDTH - 0)) with 80%nat.
  apply (performs_for_loop
           (fun y => List.map (fun x => store16 (0xB8000 + 2 * (y * 80 + x)) 0x0F20)
                              (seqZ 0 80)) _ origin 20 0).
  intros y. rewrite <- flat_map_singleton.
  apply (performs_for_loop
           (fun x => [store16 (0xB8000 + 2 * (y * 80 + x)) 0x0F20]) _ origin 80 0).
  intros x. apply performs_call_ret.
Qed.

Lemma screen_clear_cell (a v : Z) :
  In (store16 a v) screen_clear <->
  v = 0x0F20 /\ exists cell, 0 <= cell < VGA_WIDTH * VGA_HEIGHT /\ a = cell_address cell.
Proof.
  unfold screen_clear, cell_address, VGA_WIDTH, VGA_HEIGHT. rewrite in_flat_map. split.
  - intros (y & Hy & Hin). apply in_map_iff in Hin as (x & Heq & Hx).
    apply list_elem_of_In, elem_of_seqZ in Hy, Hx. injection Heq as <- <-.
    split; [reflexivity|]. exists (y * 80 + x). split; [lia | reflexivity].
  - intros (-> & cell & Hcell & ->). exists (cell / 80). split.
    + apply list_elem_of_In, elem_of_seqZ. Z.div_mod_to_equations; lia.
    + apply in_map_iff. exists (cell mod 80). split.
      * do 2 f_equal. Z.div_mod_to_equations; lia.
      * apply list_elem_of_In, elem_of_seqZ. Z.div_mod_to_equations; lia.
Qed.

Lemma cell_address_in_text_buffer (cell : Z) :
  0 <= cell < VGA_WIDTH * VGA_HEIGHT -> in_text_buffer (cell_address cell) = true.
Proof.
  unfold in_text_buffer, cell_address, VGA_WIDTH, VGA_HEIGHT. intros H.
  apply andb_true_iff. split; [apply Z.leb_le | apply Z.ltb_lt]; lia.
Qed.

(** X3. From any state of the console and on any machine,
    [terminal_initialize] returns after 1600 stores with [video_mem] at
    0xB8000 and the cursor in row 0, column 0.  Then every cell of the
    80 x 20 screen holds a space in white on black, and memory outside
    the text buffer is as it was. *)
Theorem terminal_initialize_clears_screen (t : terminal) (m : machine) (cell : Z) :
  0 <= cell < VGA_WIDTH * VGA_HEIGHT ->
  let c := steps 1600 (terminal_initialize t, m) in
  returned c = Some origin /\
  trace c.2 = trace m ++ screen_clear /\
  ram c.2 !! cell_address cell = Some 0x0F20 /\
  (forall a, in_text_buffer a = false -> ram c.2 !! a = ram m !! a).
Proof.
  intros Hcell c. subst c.
  destruct (performs_steps screen_clear _ _ m (terminal_initialize_performs t))
    as [Hret Hm].
  change (List.length screen_clear) with 1600%nat in Hret, Hm.
  rewrite Hret, Hm, trace_perform_all, ram_perform_all.
  split; [reflexivity|]. split; [reflexivity|]. split.
  - apply store_all_same_value.
    + intros a' v' Hin. apply screen_clear_cell in Hin as [-> _]. reflexivity.
    + apply screen_clear_cell. split; [reflexivity|]. exists cell. auto.
  - intros a Hout. apply store_all_untouched. intros v Hin.
    apply screen_clear_cell in Hin as (_ & cell' & Hcell' & ->).
    rewrite cell_address_in_text_buffer in Hout by exact Hcell'. discriminate.
Qed.

Lemma terminal_initialize_clears_screen_witness :
  0 <= 1599 < VGA_WIDTH * VGA_HEIGHT /\
  ram (steps 1600
         (terminal_initialize {| video_mem := 0; terminal_row := 7; terminal_col := 65535 |},
          power_on {| ds := 0; es := 0; fs := 0; gs := 0; ss := 0 |} false
                   {| argument := []; next := 0 |} 0 [])).2
    !! cell_address 1599 = Some 0x0F20.
Proof.
  split; [unfold VGA_WIDTH, VGA_HEIGHT; lia|].
  apply (terminal_initialize_clears_screen
           {| video_mem := 0; terminal_row := 7; terminal_col := 65535 |}
           (power_on {| ds := 0; es := 0; fs := 0; gs := 0; ss := 0 |} false
                     {| argument := []; next := 0 |} 0 [])
           1599).
  unfold VGA_WIDTH, VGA_HEIGHT. lia.
Defined.

(** ** The screen: characters *)

(** X1. The low byte of a cell that [terminal_make_char] makes is the
    byte of the character.  The high byte is the colour if the character
    is not negative; for a negative character, which is a [char] from
    0x80 on, the sign of the promoted [int] fills the high byte, which
    is 0xFF whatever the colour. *)
Theorem terminal_make_char_bytes (c colour : Z) :
  -128 <= c < 128 -> 0 <= colour < 128 ->
  terminal_make_char c colour mod 2 ^ 8 = uint8 c /\
  terminal_make_char c colour / 2 ^ 8 = (if c <? 0 then 0xFF else colour).
Proof.
  intros Hc Hcolour.
  assert (Hall :
    List.forallb (fun c => List.forallb (fun colour =>
      (colour <? 0) ||
      ((terminal_make_char c colour mod 2 ^ 8 =? uint8 c) &&
       (terminal_make_char c colour / 2 ^ 8 =? (if c <? 0 then 0xFF else colour))))
      char_values) char_values = true) by (vm_compute; reflexivity).
  rewrite forallb_forall in Hall. specialize (Hall c (chars_spec c Hc)).
  rewrite forallb_forall in Hall.
  specialize (Hall colour (chars_spec colour ltac:(lia))).
  apply orb_true_iff in Hall as [Hneg | Hall]; [apply Z.ltb_lt in Hneg; lia|].
  apply andb_true_iff in Hall as [H1 H2]. split; apply Z.eqb_eq; assumption.
Qed.

Lemma terminal_make_char_bytes_witness :
  -128 <= -31 < 128 /\ 0 <= 15 < 128 /\
  terminal_make_char (-31) 15 mod 2 ^ 8 = uint8 (-31) /\
  terminal_make_char (-31) 15 / 2 ^ 8 = 0xFF.
Proof.
  split; [lia|]. split; [lia|].
  apply (terminal_make_char_bytes (-31) 15); lia.
Defined.

Lemma cursor_at_cursor_cell (t : terminal) : on_screen t -> cursor_at (cursor_cell t) = t.
Proof.
  destruct t as [v r c]. unfold on_screen, cursor_at, cursor_cell, VGA_WIDTH, VGA_HEIGHT.
  cbn. intros (-> & Hc & Hr). f_equal; Z.div_mod_to_equations; lia.
Qed.

Lemma cursor_cell_range (t : terminal) :
  on_screen t -> 0 <= cursor_cell t < VGA_WIDTH * VGA_HEIGHT.
Proof.
  unfold on_screen, cursor_cell, VGA_WIDTH, VGA_HEIGHT. intros (_ & Hc & Hr). lia.
Qed.

Lemma cursor_at_on_screen (cell : Z) :
  0 <= cell < VGA_WIDTH * VGA_HEIGHT -> on_screen (cursor_at cell).
Proof.
  unfold on_screen, cursor_at, VGA_WIDTH, VGA_HEIGHT. cbn. intros H.
  split; [reflexivity|]. Z.div_mod_to_equations; lia.
Qed.

Lemma cursor_cell_cursor_at (cell : Z) : cursor_cell (cursor_at cell) = cell.
Proof.
  unfold cursor_cell, cursor_at, VGA_WIDTH. cbn. Z.div_mod_to_equations; lia.
Qed.

(** The cursor moves on by one cell, from the last cell to the first. *)
Lemma advance_cursor_at (cell : Z) :
  0 <= cell < VGA_WIDTH * VGA_HEIGHT ->
  advance_cursor (cursor_at cell) = cursor_at ((cell + 1) mod (VGA_WIDTH * VGA_HEIGHT)).
Proof.
  intros Hcell. pose proof (cursor_at_on_screen cell Hcell) as (_ & Hc & Hr).
  rewrite advance_cursor_on_screen by assumption.
  unfold cursor_at, VGA_WIDTH, VGA_HEIGHT in *. cbn in *.
  destruct (Z.eqb_spec (cell mod 80) 79) as [H79 | H79];
    [destruct (Z.eqb_spec (cell / 80) 19) as [H19 | H19]|];
    f_equal; Z.div_mod_to_equations; lia.
Qed.

Lemma terminal_writechar_performs (c colour : Z) (t : terminal) :
  printable c ->
  performs [store16 (video_mem t + 2 * cursor_cell t) (terminal_make_char c colour)]
           (terminal_writechar c colour t) (advance_cursor t).
Proof.
  intros [Hlf Hbs]. rewrite terminal_writechar_eq.
  apply Z.eqb_neq in Hlf, Hbs. rewrite Hlf, Hbs. cbv zeta.
  rewrite advance_cursor_eq. apply performs_call_ret.
Qed.

Lemma terminal_writechars_performs (cs : list Z) (colour cell : Z) :
  Forall printable cs -> 0 <= cell < VGA_WIDTH * VGA_HEIGHT ->
  performs (written_cells cell cs colour)
           (terminal_writechars cs colour (cursor_at cell))
           (cursor_at ((cell + Z.of_nat (List.length cs)) mod (VGA_WIDTH * VGA_HEIGHT))).
Proof.
  intros Hcs. revert cell. induction Hcs as [|c rest Hc _ IH]; intros cell Hcell.
  - cbn. rewrite Z.add_0_r, Z.mod_small by exact Hcell. reflexivity.
  - unfold written_cells. rewrite imap_cons. cbn [terminal_writechars List.length].
    apply (performs_bind [_] _ _ _ (advance_cursor (cursor_at cell))).
    + rewrite Z.add_0_r, Z.mod_small by exact Hcell.
      pose proof (terminal_writechar_performs c colour (cursor_at cell) Hc) as H.
      rewrite cursor_cell_cursor_at in H. exact H.
    + rewrite advance_cursor_at by exact Hcell.
      assert (Hnext : 0 <= (cell + 1) mod (VGA_WIDTH * VGA_HEIGHT) < VGA_WIDTH * VGA_HEIGHT)
        by (apply Z.mod_pos_bound; reflexivity).
      specialize (IH _ Hnext).
      replace ((cell + Z.of_nat (S (List.length rest))) mod (VGA_WIDTH * VGA_HEIGHT))
        with (((cell + 1) mod (VGA_WIDTH * VGA_HEIGHT) + Z.of_nat (List.length rest))
                mod (VGA_WIDTH * VGA_HEIGHT))
        by (rewrite Zplus_mod_idemp_l; f_equal; lia).
      erewrite imap_ext; [exact IH|].
      intros k x _. cbn. do 2 f_equal.
      rewrite Zplus_mod_idemp_l. f_equal. lia.
Qed.

Lemma length_written_cells (cell : Z) (cs : list Z) (colour : Z) :
  List.length (written_cells cell cs colour) = List.length cs.
Proof. apply length_imap. Qed.

Lemma written_cells_on_screen (cell : Z) (cs : list Z) (colour : Z) :
  Forall stored_on_screen (written_cells cell cs colour).
Proof.
  apply Forall_forall. intros e He. unfold written_cells in He.
  apply elem_of_lookup_imap in He as (k & c & -> & _). cbn.
  apply cell_address_in_text_buffer, Z.mod_pos_bound. reflexivity.
Qed.

Lemma written_cells_snoc (cell : Z) (cs : list Z) (c colour : Z) :
  written_cells cell (cs ++ [c]) colour =
    written_cells cell cs colour ++
      [store16 (cell_address ((cell + Z.of_nat (List.length cs)) mod (VGA_WIDTH * VGA_HEIGHT)))
               (terminal_make_char c colour)].
Proof.
  unfold written_cells. rewrite imap_app. cbn. rewrite Nat.add_0_r. reflexivity.
Qed.

Lemma store_all_written_cells (cell : Z) (cs : list Z) (colour : Z) (cells : gmap Z Z)
    (k : nat) (c : Z) :
  (List.length cs <= 1600)%nat -> cs !! k = Some c ->
  store_all (written_cells cell cs colour) cells
    !! cell_address ((cell + Z.of_nat k) mod (VGA_WIDTH * VGA_HEIGHT)) =
  Some (terminal_make_char c colour).
Proof.
  revert k c. induction cs as [|c0 cs IH] using rev_ind; intros k c Hlen Hk.
  - discriminate Hk.
  - rewrite length_app in Hlen. cbn in Hlen.
    rewrite written_cells_snoc, store_all_snoc. cbn.
    destruct (decide (k = List.length cs)) as [-> | Hne].
    + rewrite lookup_app_r, Nat.sub_diag in Hk by lia. injection Hk as ->.
      apply lookup_insert_eq.
    + assert (Hlt : (k < List.length cs)%nat).
      { apply lookup_lt_Some in Hk. rewrite length_app in Hk. cbn in Hk. lia. }
      rewrite lookup_app_l in Hk by exact Hlt.
      rewrite lookup_insert_ne; [apply IH; [lia | exact Hk]|].
      unfold cell_address, VGA_WIDTH, VGA_HEIGHT. Z.div_mod_to_equations. lia.
Qed.

(** X4. From a cursor on the screen, a sequence of characters other
    than the line feed and 0x08 goes into consecutive cells, row after
    row, and from the last cell of the screen on into the first: the
    character number [k] is stored in cell (cursor + k) mod 1600.  All
    stores are inside the text buffer, the cursor ends on the screen at
    (cursor + length) mod 1600, and after 1600 characters it is back
    where it was: the console wraps around, it does not scroll. *)
Theorem terminal_writechars_wrap (cs : list Z) (colour : Z) (t : terminal) (m : machine) :
  Forall printable cs -> on_screen t ->
  let new := written_cells (cursor_cell t) cs colour in
  let t' := cursor_at ((cursor_cell t + Z.of_nat (List.length cs))
                         mod (VGA_WIDTH * VGA_HEIGHT)) in
  let c := steps (List.length cs) (terminal_writechars cs colour t, m) in
  performs new (terminal_writechars cs colour t) t' /\
  returned c = Some t' /\
  trace c.2 = trace m ++ new /\
  Forall stored_on_screen new /\
  on_screen t' /\
  (List.length cs = 1600%nat -> t' = t).
Proof.
  intros Hcs Hscreen new t' c.
  pose proof (cursor_cell_range t Hscreen) as Hcell.
  assert (Hperf : performs new (terminal_writechars cs colour t) t').
  { pose proof (terminal_writechars_performs cs colour _ Hcs Hcell) as H.
    rewrite cursor_at_cursor_cell in H by exact Hscreen. exact H. }
  destruct (performs_steps new _ _ m Hperf) as [Hret Hm].
  subst new. rewrite length_written_cells in Hret, Hm.
  split; [exact Hperf|]. split; [exact Hret|]. split.
  { subst c. rewrite Hm. apply trace_perform_all. }
  split; [apply written_cells_on_screen|]. split.
  { apply cursor_at_on_screen, Z.mod_pos_bound. reflexivity. }
  intros Hlen. subst t'. rewrite Hlen.
  rewrite <- (cursor_at_cursor_cell t Hscreen) at 2. f_equal.
  change (Z.of_nat 1600) with (1 * (VGA_WIDTH * VGA_HEIGHT)).
  rewrite Z.mod_add by discriminate. apply Z.mod_small, Hcell.
Qed.

Lemma terminal_writechars_wrap_witness :
  Forall printable [72; 105; 33] /\
  on_screen {| video_mem := 0xB8000; terminal_row := 19; terminal_col := 78 |} /\
  returned
    (steps 3
       (terminal_writechars [72; 105; 33] 15
          {| video_mem := 0xB8000; terminal_row := 19; terminal_col := 78 |},
        power_on {| ds := 0; es := 0; fs := 0; gs := 0; ss := 0 |} false
                 {| argument := []; next := 0 |} 0 [])) =
    Some {| video_mem := 0xB8000; terminal_row := 0; terminal_col := 1 |}.
Proof.
  assert (Hcs : Forall printable [72; 105; 33])
    by (repeat constructor; discriminate).
  assert (Hscreen :
    on_screen {| video_mem := 0xB8000; terminal_row := 19; terminal_col := 78 |})
    by (unfold on_screen, VGA_WIDTH, VGA_HEIGHT; simpl; lia).
  split; [exact Hcs|]. split; [exact Hscreen|].
  apply (terminal_writechars_wrap [72; 105; 33] 15
           {| video_mem := 0xB8000; terminal_row := 19; terminal_col := 78 |}
           (power_on {| ds := 0; es := 0; fs := 0; gs := 0; ss := 0 |} false
                     {| argument := []; next := 0 |} 0 [])
           Hcs Hscreen).
Defined.

(** X5. After up to 1600 such characters each of them is in memory in
    its cell: none of them has been overwritten by a later one.  For a
    [char] and a colour from 0 to 127 the cell holds the byte of the
    character in its low byte; its high byte is the colour if the
    character is not negative, and 0xFF if it is negative, which is a
    [char] from 0x80 on. *)
Theorem written_text_is_in_its_cells (cs : list Z) (colour : Z) (t : terminal)
    (m : machine) (k : nat) (c : Z) :
  Forall printable cs -> on_screen t ->
  (List.length cs <= 1600)%nat -> cs !! k = Some c ->
  -128 <= c < 128 -> 0 <= colour < 128 ->
  ram (steps (List.length cs) (terminal_writechars cs colour t, m)).2
    !! (0xB8000 + 2 * ((terminal_row t * 80 + terminal_col t + Z.of_nat k) mod 1600)) =
  Some (256 * (if c <? 0 then 0xFF else colour) + c mod 256).
Proof.
  intros Hcs Hscreen Hlen Hk Hc Hcolour.
  pose proof (terminal_writechars_performs cs colour _ Hcs (cursor_cell_range t Hscreen)) as H.
  rewrite cursor_at_cursor_cell in H by exact Hscreen.
  destruct (performs_steps _ _ _ m H) as [_ Hm].
  rewrite length_written_cells in Hm.
  rewrite Hm, ram_perform_all.
  change (c mod 256) with (uint8 c).
  rewrite <- (terminal_make_char_value c colour Hc Hcolour).
  apply (store_all_written_cells (cursor_cell t)); assumption.
Qed.

Lemma written_text_is_in_its_cells_witness :
  Forall printable [72; -31; 33] /\
  on_screen {| video_mem := 0xB8000; terminal_row := 19; terminal_col := 78 |} /\
  (List.length [72; -31; 33]%Z <= 1600)%nat /\
  [72; -31; 33] !! 1%nat = Some (-31) /\
  -128 <= -31 < 128 /\ 0 <= 15 < 128 /\
  ram (steps 3
         (terminal_writechars [72; -31; 33] 15
            {| video_mem := 0xB8000; terminal_row := 19; terminal_col := 78 |},
          power_on {| ds := 0; es := 0; fs := 0; gs := 0; ss := 0 |} false
                   {| argument := []; next := 0 |} 0 [])).2
    !! 0xB8C7E = Some 0xFFE1.
Proof.
  assert (Hcs : Forall printable [72; -31; 33])
    by (repeat constructor; discriminate).
  assert (Hscreen :
    on_screen {| video_mem := 0xB8000; terminal_row := 19; terminal_col := 78 |})
    by (unfold on_screen, VGA_WIDTH, VGA_HEIGHT; simpl; lia).
  assert (Hlen : (List.length [72; -31; 33]%Z <= 1600)%nat) by (simpl; lia).
  assert (Hc : -128 <= -31 < 128) by lia.
  assert (Hcolour : 0 <= 15 < 128) by lia.
  split; [exact Hcs|]. split; [exact Hscreen|]. split; [exact Hlen|].
  split; [reflexivity|]. split; [exact Hc|]. split; [exact Hcolour|].
  apply (written_text_is_in_its_cells [72; -31; 33] 15
           {| video_mem := 0xB8000; terminal_row := 19; terminal_col := 78 |}
           (power_on {| ds := 0; es := 0; fs := 0; gs := 0; ss := 0 |} false
                     {| argument := []; next := 0 |} 0 [])
           1 (-31) Hcs Hscreen Hlen eq_refl Hc Hcolour).
Defined.

(** ** The screen: backspace *)

Lemma terminal_backspace_performs (colour : Z) (t : terminal) :
  on_screen t -> 1 <= terminal_col t ->
  performs [store16 (cell_address (cursor_cell t - 1)) 0x0F20]
           (terminal_writechar 0x08 colour t) (cursor_at (cursor_cell t - 1)).
Proof.
  intros (Hmem & Hcol & Hrow) Hcol1.
  rewrite terminal_writechar_eq. change (8 =? 10) with false. change (8 =? 8) with true.
  cbv iota. rewrite terminal_backspace_eq.
  destruct (Z.eqb_spec (terminal_col t) 0) as [H0 | _]; [lia|].
  rewrite andb_false_r. cbv zeta.
  set (t1 := set_terminal_col (uint16 (terminal_col t - 1)) t).
  assert (Ht1 : t1 = cursor_at (cursor_cell t - 1)).
  { subst t1. destruct t as [v r c]. unfold VGA_WIDTH, VGA_HEIGHT in *.
    cbn in *. subst v. unfold cursor_at, cursor_cell, set_terminal_col, uint16, VGA_WIDTH.
    cbn. f_equal; Z.div_mod_to_equations; lia. }
  assert (Hcell : 0 <= cursor_cell t - 1 < VGA_WIDTH * VGA_HEIGHT).
  { unfold cursor_cell, VGA_WIDTH, VGA_HEIGHT in *. lia. }
  apply (performs_bind [_] [] _ _ (advance_cursor t1)).
  - pose proof (terminal_writechar_performs 32 15 t1) as H.
    rewrite Ht1 in H at 1 2. rewrite cursor_cell_cursor_at in H.
    apply H. split; discriminate.
  - rewrite Ht1, advance_cursor_at by exact Hcell.
    replace (cursor_cell t - 1 + 1) with (cursor_cell t) by lia.
    rewrite Z.mod_small by (unfold cursor_cell, VGA_WIDTH, VGA_HEIGHT in *; lia).
    replace (set_terminal_col _ _) with (cursor_at (cursor_cell t - 1)); [apply performs_ret|].
    unfold cursor_at, cursor_cell, set_terminal_col, uint16, VGA_WIDTH, VGA_HEIGHT in *.
    cbn. f_equal; Z.div_mod_to_equations; lia.
Qed.

(** X6. What 0x08 does from a cursor on the screen, whatever the colour
    it is written with.  In row 0, column 0: nothing.  In a column other
    than 0: a space in white on black goes into the cell before the
    cursor, and the cursor is left on that cell.  In column 0 of a row
    other than 0: the space goes into the last cell of the row above,
    but the cursor is left in its row, in column 65535, which is no
    column of the screen. *)
Theorem terminal_backspace_on_screen (colour : Z) (t : terminal) :
  on_screen t ->
  (terminal_row t = 0 -> terminal_col t = 0 ->
   performs [] (terminal_writechar 0x08 colour t) t) /\
  (1 <= terminal_col t ->
   performs [store16 (cell_address (cursor_cell t - 1)) 0x0F20]
            (terminal_writechar 0x08 colour t) (cursor_at (cursor_cell t - 1))) /\
  (terminal_col t = 0 -> 1 <= terminal_row t ->
   performs [store16 (cell_address (cursor_cell t - 1)) 0x0F20]
            (terminal_writechar 0x08 colour t)
            {| video_mem := 0xB8000; terminal_row := terminal_row t;
               terminal_col := 65535 |}).
Proof.
  intros Hscreen. split; [|split].
  - intros Hr Hc. rewrite terminal_writechar_eq, terminal_backspace_eq, Hr, Hc.
    reflexivity.
  - apply terminal_backspace_performs, Hscreen.
  - destruct Hscreen as (Hmem & Hcol & Hrow). intros Hc Hr.
    rewrite terminal_writechar_eq. change (8 =? 10) with false. change (8 =? 8) with true.
    cbv iota. rewrite terminal_backspace_eq, Hc.
    destruct (Z.eqb_spec (terminal_row t) 0) as [H0 | _]; [lia|].
    cbv zeta. cbn [andb Z.eqb].
    set (t1 := set_terminal_col (uint16 _) _).
    assert (Ht1 : t1 = cursor_at (cursor_cell t - 1)).
    { subst t1. destruct t as [v r c]. unfold VGA_WIDTH, VGA_HEIGHT in *.
      cbn in *. subst v c.
      unfold cursor_at, cursor_cell, set_terminal_col, set_terminal_row, uint16, VGA_WIDTH.
      cbn. f_equal; Z.div_mod_to_equations; lia. }
    assert (Hcell : 0 <= cursor_cell t - 1 < VGA_WIDTH * VGA_HEIGHT).
    { unfold cursor_cell, VGA_WIDTH, VGA_HEIGHT in *. lia. }
    apply (performs_bind [_] [] _ _ (advance_cursor t1)).
    + pose proof (terminal_writechar_performs 32 15 t1) as H.
      rewrite Ht1 in H at 1 2. rewrite cursor_cell_cursor_at in H.
      apply H. split; discriminate.
    + rewrite Ht1, advance_cursor_at by exact Hcell.
      replace (cursor_cell t - 1 + 1) with (cursor_cell t) by lia.
      rewrite Z.mod_small by (unfold cursor_cell, VGA_WIDTH, VGA_HEIGHT in *; lia).
      match goal with
      | |- performs [] (Ret ?x) ?y => replace x with y; [apply performs_ret|]
      end.
      unfold cursor_at, cursor_cell, set_terminal_col, uint16, VGA_WIDTH, VGA_HEIGHT in *.
      cbn. rewrite Hc. f_equal; Z.div_mod_to_equations; lia.
Qed.

Lemma terminal_backspace_on_screen_witness :
  on_screen {| video_mem := 0xB8000; terminal_row := 3; terminal_col := 0 |} /\
  performs [store16 (cell_address 239) 0x0F20]
           (terminal_writechar 0x08 4
              {| video_mem := 0xB8000; terminal_row := 3; terminal_col := 0 |})
           {| video_mem := 0xB8000; terminal_row := 3; terminal_col := 65535 |}.
Proof.
  assert (Hscreen :
    on_screen {| video_mem := 0xB8000; terminal_row := 3; terminal_col := 0 |})
    by (unfold on_screen, VGA_WIDTH, VGA_HEIGHT; simpl; lia).
  split; [exact Hscreen|].
  apply (terminal_backspace_on_screen 4
           {| video_mem := 0xB8000; terminal_row := 3; terminal_col := 0 |} Hscreen);
    simpl; lia.
Defined.

(** X7. In a column before the last one, writing a character and then
    0x08 gives the cursor back as it was and leaves a space in white on
    black in the cell of the character; no other cell has changed. *)
Theorem write_then_backspace (c colour : Z) (t : terminal) (m : machine) :
  printable c -> on_screen t -> terminal_col t < 79 ->
  let cell := cell_address (cursor_cell t) in
  let run := steps 2 (terminal_writechars [c; 0x08] colour t, m) in
  returned run = Some t /\
  trace run.2 = trace m ++ [store16 cell (terminal_make_char c colour); store16 cell 0x0F20] /\
  ram run.2 = <[cell := 0x0F20]> (ram m).
Proof.
  intros Hc Hscreen Hcol cell run.
  pose proof (cursor_cell_range t Hscreen) as Hcell.
  assert (Hadv : advance_cursor t = cursor_at (cursor_cell t + 1)).
  { rewrite <- (cursor_at_cursor_cell t Hscreen) at 1.
    rewrite advance_cursor_at by exact Hcell. f_equal. apply Z.mod_small.
    destruct Hscreen as (_ & H1 & H2).
    unfold cursor_cell, VGA_WIDTH, VGA_HEIGHT in *. lia. }
  assert (Hperf : performs [store16 cell (terminal_make_char c colour); store16 cell 0x0F20]
                           (terminal_writechars [c; 0x08] colour t) t).
  { cbn [terminal_writechars].
    apply (performs_bind [_] [_] _ _ (advance_cursor t)).
    - pose proof (terminal_writechar_performs c colour t Hc) as H.
      destruct Hscreen as (Hmem & _). rewrite Hmem in H. exact H.
    - apply (performs_bind [_] [] _ _ t); [|apply performs_ret].
      pose proof (terminal_backspace_performs colour (advance_cursor t)) as H.
      rewrite Hadv, cursor_cell_cursor_at in H.
      replace (cursor_cell t + 1 - 1) with (cursor_cell t) in H by lia.
      rewrite cursor_at_cursor_cell in H by exact Hscreen.
      rewrite Hadv. apply H.
      + apply cursor_at_on_screen. destruct Hscreen as (_ & H1 & H2).
        unfold cursor_cell, VGA_WIDTH, VGA_HEIGHT in *. lia.
      + destruct Hscreen as (_ & H1 & H2).
        unfold cursor_at, cursor_cell, VGA_WIDTH, VGA_HEIGHT in *. cbn.
        Z.div_mod_to_equations; lia. }
  destruct (performs_steps _ _ _ m Hperf) as [Hret Hm]. cbn [List.length] in Hret, Hm.
  subst run. rewrite Hret, Hm, trace_perform_all, ram_perform_all.
  split; [reflexivity|]. split; [reflexivity|]. cbn. apply insert_insert_eq.
Qed.

Lemma write_then_backspace_witness :
  printable 65 /\
  on_screen {| video_mem := 0xB8000; terminal_row := 2; terminal_col := 78 |} /\
  78 < 79 /\
  returned
    (steps 2
       (terminal_writechars [65; 0x08] 15
          {| video_mem := 0xB8000; terminal_row := 2; terminal_col := 78 |},
        power_on {| ds := 0; es := 0; fs := 0; gs := 0; ss := 0 |} false
                 {| argument := []; next := 0 |} 0 [])) =
    Some {| video_mem := 0xB8000; terminal_row := 2; terminal_col := 78 |}.
Proof.
  assert (Hc : printable 65) by (unfold printable; lia).
  assert (Hscreen :
    on_screen {| video_mem := 0xB8000; terminal_row := 2; terminal_col := 78 |})
    by (unfold on_screen, VGA_WIDTH, VGA_HEIGHT; simpl; lia).
  split; [exact Hc|]. split; [exact Hscreen|]. split; [lia|].
  apply (write_then_backspace 65 15
           {| video_mem := 0xB8000; terminal_row := 2; terminal_col := 78 |}
           (power_on {| ds := 0; es := 0; fs := 0; gs := 0; ss := 0 |} false
                     {| argument := []; next := 0 |} 0 [])
           Hc Hscreen).
  simpl. lia.
Defined.

(** ** [print] *)

Lemma strlen_c_string (str : string) : strlen str = Z.of_nat (List.length (c_string str)).
Proof.
  induction str as [|a rest IH]; [reflexivity|]. cbn [strlen c_string].
  destruct (char_of_ascii a =? 0); [reflexivity|]. cbn [List.length]. lia.
Qed.

Lemma char_at_c_string (str : string) (k : nat) (c : Z) :
  c_string str !! k = Some c -> char_at str (Z.of_nat k) = c.
Proof.
  unfold char_at. rewrite Nat2Z.id. revert k.
  induction str as [|a rest IH]; intros k Hk; [discriminate Hk|].
  cbn [c_string] in Hk. destruct (char_of_ascii a =? 0); [discriminate Hk|].
  destruct k as [|k]; cbn in *; [congruence | apply IH, Hk].
Qed.

Lemma c_string_NUL (s1 s2 : string) :
  c_string (s1 ++ String "000" s2) = c_string s1.
Proof.
  induction s1 as [|a rest IH]; [reflexivity|]. simpl.
  destruct (char_of_ascii a =? 0); [reflexivity|]. f_equal. exact IH.
Qed.

Lemma c_string_app (s1 s2 : string) :
  List.length (c_string s1) = String.length s1 ->
  c_string (s1 ++ s2) = c_string s1 ++ c_string s2.
Proof.
  induction s1 as [|a rest IH]; [reflexivity|]. simpl.
  destruct (char_of_ascii a =? 0); [discriminate|]. simpl.
  intros H. f_equal. apply IH. lia.
Qed.

(** The loop over the indices of a string is the sequence of writes of
    its characters. *)
Lemma for_loop_writechars (get : Z -> Z) (colour : Z) (cs : list Z) (i : Z) (t : terminal) :
  (forall k c, cs !! k = Some c -> get (i + Z.of_nat k) = c) ->
  for_loop (List.length cs) i (fun j t => terminal_writechar (get j) colour t) t ≅
  terminal_writechars cs colour t.
Proof.
  revert i t. induction cs as [|c cs IH]; intros i t Hget; [reflexivity|].
  cbn [List.length for_loop terminal_writechars]. unfold mbind, itree_bind.
  rewrite <- (Hget 0%nat c eq_refl), Z.add_0_r.
  apply eqit_bind; [reflexivity|]. intros t'. apply IH.
  intros k c' Hk. rewrite <- (Hget (S k) c' Hk). f_equal. lia.
Qed.

Lemma print_writechars (str : string) (t : terminal) :
  print str t ≅ terminal_writechars (c_string str) TERMINAL_COLOUR t.
Proof.
  unfold print, for_range. cbv zeta.
  rewrite Z.sub_0_r, strlen_c_string, Nat2Z.id.
  apply for_loop_writechars. intros k c Hk. apply char_at_c_string, Hk.
Qed.

Lemma terminal_writechars_app (cs1 cs2 : list Z) (colour : Z) (t : terminal) :
  terminal_writechars (cs1 ++ cs2) colour t ≅
  (terminal_writechars cs1 colour t ≫= terminal_writechars cs2 colour).
Proof.
  revert t. induction cs1 as [|c cs1 IH]; intros t; unfold mbind, itree_bind in *.
  - cbn. rewrite bind_ret_l. reflexivity.
  - cbn [app terminal_writechars]. unfold mbind, itree_bind. rewrite bind_bind.
    apply eqit_bind; [reflexivity|]. intros t'. apply IH.
Qed.

(** X8. [print] is one [terminal_writechar] in white on black for each
    character before the first NUL of the string, in their order; what
    follows a NUL is not printed, and the empty string prints nothing. *)
Theorem print_writes_up_to_NUL (str : string) (t : terminal) :
  print str t ≅ terminal_writechars (c_string str) TERMINAL_COLOUR t /\
  (forall rest : string, print (str ++ String "000" rest) t ≅ print str t) /\
  print "" t ≅ Ret t.
Proof.
  split; [apply print_writechars|]. split.
  - intros rest. rewrite !print_writechars, c_string_NUL. reflexivity.
  - rewrite print_writechars. reflexivity.
Qed.

Lemma print_line_performs (text : string) (t : terminal) :
  Forall printable (c_string text) ->
  List.length (c_string text) = String.length text ->
  on_screen t ->
  terminal_col t + Z.of_nat (String.length text) < VGA_WIDTH ->
  performs (written_cells (cursor_cell t) (c_string text) TERMINAL_COLOUR)
           (print (line text) t)
           {| video_mem := 0xB8000; terminal_row := terminal_row t + 1;
              terminal_col := 0 |}.
Proof.
  intros Hcs Hnul Hscreen Hfit.
  apply (performs_eq_itree _
           (terminal_writechars (c_string text) TERMINAL_COLOUR t ≫=
            terminal_writechars [10] TERMINAL_COLOUR)).
  { rewrite print_writechars. unfold line. rewrite c_string_app by exact Hnul.
    symmetry. apply terminal_writechars_app. }
  rewrite <- (app_nil_r (written_cells _ _ _)).
  pose proof (terminal_writechars_performs _ TERMINAL_COLOUR _ Hcs
                (cursor_cell_range t Hscreen)) as H.
  rewrite cursor_at_cursor_cell in H by exact Hscreen.
  eapply performs_bind; [exact H|].
  rewrite Hnul.
  destruct Hscreen as (Hmem & Hcol & Hrow).
  rewrite Z.mod_small by (unfold cursor_cell, VGA_WIDTH, VGA_HEIGHT in *; lia).
  cbn [terminal_writechars]. rewrite terminal_writechar_eq. cbn.
  unfold cursor_cell, uint16, VGA_WIDTH, VGA_HEIGHT in *.
  unfold set_terminal_col, set_terminal_row, cursor_at.
  cbn [video_mem terminal_row terminal_col]. do 2 f_equal.
  change (2 ^ 16) with 65536. unfold VGA_WIDTH. Z.div_mod_to_equations; lia.
Qed.

Lemma char_of_ascii_range (a : ascii) : -128 <= char_of_ascii a < 128.
Proof.
  unfold char_of_ascii. cbv zeta.
  pose proof (N_ascii_bounded a) as H.
  destruct (Z.ltb_spec (Z.of_N (N_of_ascii a)) 128); lia.
Qed.

Lemma c_string_range (str : string) : Forall (fun c => -128 <= c < 128) (c_string str).
Proof.
  induction str as [|a rest IH]; [constructor|]. cbn [c_string].
  destruct (char_of_ascii a =? 0); [constructor|].
  constructor; [apply char_of_ascii_range | exact IH].
Qed.

(** The cells of a text that ends in the row in which it begins, by
    their addresses and bytes. *)
Lemma written_cells_in_row (cell : Z) (cs : list Z) (colour : Z) :
  Forall (fun c => -128 <= c < 128) cs -> 0 <= colour < 128 ->
  0 <= cell -> cell + Z.of_nat (List.length cs) <= VGA_WIDTH * VGA_HEIGHT ->
  written_cells cell cs colour =
    imap (fun k c => store16 (0xB8000 + 2 * (cell + Z.of_nat k))
                             (256 * (if c <? 0 then 0xFF else colour) + c mod 256))
         cs.
Proof.
  intros Hcs Hcolour Hcell Hfit. unfold written_cells. apply imap_ext.
  intros k c Hk. cbn beta.
  pose proof (lookup_lt_Some _ _ _ Hk) as Hlt.
  rewrite Forall_forall in Hcs.
  assert (Hc : -128 <= c < 128).
  { apply Hcs. eapply list_elem_of_lookup_2, Hk. }
  rewrite (terminal_make_char_value c colour Hc Hcolour).
  unfold cell_address, uint8. rewrite Z.mod_small by lia. reflexivity.
Qed.

Lemma print_line_performs_row (text : string) (t : terminal) :
  Forall printable (c_string text) ->
  List.length (c_string text) = String.length text ->
  on_screen t ->
  terminal_col t + Z.of_nat (String.length text) <= VGA_WIDTH ->
  performs (written_cells (cursor_cell t) (c_string text) TERMINAL_COLOUR)
           (print (line text) t)
           {| video_mem := 0xB8000;
              terminal_row :=
                if terminal_col t + Z.of_nat (String.length text) <? VGA_WIDTH
                then terminal_row t + 1
                else if terminal_row t =? VGA_HEIGHT - 1 then 1 else terminal_row t + 2;
              terminal_col := 0 |}.
Proof.
  intros Hcs Hnul Hscreen Hfit.
  destruct (Z.ltb_spec (terminal_col t + Z.of_nat (String.length text)) VGA_WIDTH)
    as [Hlt | Hge]; [apply print_line_performs; assumption|].
  apply (performs_eq_itree _
           (terminal_writechars (c_string text) TERMINAL_COLOUR t ≫=
            terminal_writechars [10] TERMINAL_COLOUR)).
  { rewrite print_writechars. unfold line. rewrite c_string_app by exact Hnul.
    symmetry. apply terminal_writechars_app. }
  rewrite <- (app_nil_r (written_cells _ _ _)).
  pose proof (terminal_writechars_performs _ TERMINAL_COLOUR _ Hcs
                (cursor_cell_range t Hscreen)) as H.
  rewrite cursor_at_cursor_cell in H by exact Hscreen.
  eapply performs_bind; [exact H|].
  rewrite Hnul.
  destruct Hscreen as (Hmem & Hcol & Hrow).
  assert (Hend : (cursor_cell t + Z.of_nat (String.length text)) mod (VGA_WIDTH * VGA_HEIGHT) =
                 if terminal_row t =? VGA_HEIGHT - 1 then 0
                 else (terminal_row t + 1) * VGA_WIDTH).
  { unfold cursor_cell, VGA_WIDTH, VGA_HEIGHT in *.
    destruct (Z.eqb_spec (terminal_row t) (20 - 1)); Z.div_mod_to_equations; lia. }
  rewrite Hend. clear Hend H.
  destruct (Z.eqb_spec (terminal_row t) (VGA_HEIGHT - 1)) as [Hlast | Hnot].
  - cbn [terminal_writechars]. rewrite terminal_writechar_eq. cbn. reflexivity.
  - cbn [terminal_writechars]. rewrite terminal_writechar_eq. cbn.
    unfold cursor_cell, uint16, VGA_WIDTH, VGA_HEIGHT in *.
    unfold set_terminal_col, set_terminal_row, cursor_at.
    cbn [video_mem terminal_row terminal_col]. do 2 f_equal.
    change (2 ^ 16) with 65536. unfold VGA_WIDTH. Z.div_mod_to_equations; lia.
Qed.

(** X9. [print] of a text without NUL, line feed and 0x08 that ends in
    the row of the cursor, in the last column at the latest, followed by
    a line feed.  The characters go into the cells from the cursor on:
    each cell has the byte of its character in its low byte, and in its
    high byte 0x0F, white on black, or 0xFF if the character is
    negative.  If the text leaves the last column free, the cursor is
    left in column 0 of the next row.  If it ends in the last column,
    the cursor has gone to the next row before the line feed, from the
    last row to row 0, and the line feed moves it one row further.  The
    line feed does not wrap: in the first case from row 19, and in the
    second from row 18, the cursor is left in row 20. *)
Theorem print_line_moves_to_next_row (text : string) (t : terminal) (m : machine) :
  Forall printable (c_string text) ->
  List.length (c_string text) = String.length text ->
  on_screen t ->
  terminal_col t + Z.of_nat (String.length text) <= 80 ->
  let free := terminal_col t + Z.of_nat (String.length text) <? 80 in
  let new :=
    imap (fun k c =>
            store16 (0xB8000 + 2 * (terminal_row t * 80 + terminal_col t + Z.of_nat k))
                    (256 * (if c <? 0 then 0xFF else 0x0F) + c mod 256))
         (c_string text) in
  let t' := {| video_mem := 0xB8000;
               terminal_row :=
                 if free then terminal_row t + 1
                 else if terminal_row t =? 19 then 1 else terminal_row t + 2;
               terminal_col := 0 |} in
  let run := steps (String.length text) (print (line text) t, m) in
  performs new (print (line text) t) t' /\
  returned run = Some t' /\
  trace run.2 = trace m ++ new /\
  (on_screen t' <-> if free then terminal_row t < 19 else terminal_row t <> 18).
Proof.
  intros Hcs Hnul Hscreen Hfit free new t' run.
  pose proof (print_line_performs_row text t Hcs Hnul Hscreen Hfit) as Hperf.
  rewrite (written_cells_in_row _ _ TERMINAL_COLOUR (c_string_range text)) in Hperf.
  2:{ unfold TERMINAL_COLOUR. lia. }
  2:{ destruct Hscreen as (_ & Hcol & Hrow).
      unfold cursor_cell, VGA_WIDTH, VGA_HEIGHT in *. lia. }
  2:{ destruct Hscreen as (_ & Hcol & Hrow). rewrite Hnul.
      unfold cursor_cell, VGA_WIDTH, VGA_HEIGHT in *. lia. }
  change (performs new (print (line text) t) t') in Hperf.
  split; [exact Hperf|].
  destruct (performs_steps _ _ _ m Hperf) as [Hret Hm].
  assert (Hlen : List.length new = String.length text).
  { subst new. rewrite length_imap. exact Hnul. }
  rewrite Hlen in Hret, Hm.
  subst run. rewrite Hret, Hm, trace_perform_all.
  split; [reflexivity|]. split; [reflexivity|].
  destruct Hscreen as (Hmem & Hcol & Hrow).
  subst t' free. unfold on_screen, VGA_WIDTH, VGA_HEIGHT in *.
  cbn [video_mem terminal_row terminal_col].
  destruct (Z.ltb_spec (terminal_col t + Z.of_nat (String.length text)) 80);
    [lia|].
  destruct (Z.eqb_spec (terminal_row t) 19); lia.
Qed.

Lemma print_line_moves_to_next_row_witness :
  Forall printable (c_string "Welcome to PeachOS!") /\
  List.length (c_string "Welcome to PeachOS!") = String.length "Welcome to PeachOS!" /\
  on_screen {| video_mem := 0xB8000; terminal_row := 19; terminal_col := 61 |} /\
  terminal_col {| video_mem := 0xB8000; terminal_row := 19; terminal_col := 61 |} +
    Z.of_nat (String.length "Welcome to PeachOS!") <= 80 /\
  returned
    (steps 19
       (print (line "Welcome to PeachOS!")
          {| video_mem := 0xB8000; terminal_row := 19; terminal_col := 61 |},
        power_on {| ds := 0; es := 0; fs := 0; gs := 0; ss := 0 |} false
                 {| argument := []; next := 0 |} 0 [])) =
    Some {| video_mem := 0xB8000; terminal_row := 1; terminal_col := 0 |}.
Proof.
  assert (Hcs : Forall printable (c_string "Welcome to PeachOS!"))
    by (simpl; repeat constructor; discriminate).
  assert (Hscreen :
    on_screen {| video_mem := 0xB8000; terminal_row := 19; terminal_col := 61 |})
    by (unfold on_screen, VGA_WIDTH, VGA_HEIGHT; simpl; lia).
  assert (Hfit :
    terminal_col {| video_mem := 0xB8000; terminal_row := 19; terminal_col := 61 |} +
      Z.of_nat (String.length "Welcome to PeachOS!") <= 80)
    by (simpl; lia).
  split; [exact Hcs|]. split; [reflexivity|]. split; [exact Hscreen|].
  split; [exact Hfit|].
  apply (print_line_moves_to_next_row "Welcome to PeachOS!"
           {| video_mem := 0xB8000; terminal_row := 19; terminal_col := 61 |}
           (power_on {| ds := 0; es := 0; fs := 0; gs := 0; ss := 0 |} false
                     {| argument := []; next := 0 |} 0 [])
           Hcs eq_refl Hscreen Hfit).
Defined.

(** ** The console always returns *)

(** The calls from [terminal_writechar] to [terminal_backspace] and back
    go no deeper than the two levels of [terminal_writechar]. *)
Lemma terminal_writechar_depth_enough (n : nat) (c colour : Z) (t : terminal) :
  terminal_writechar_depth (2 + n) c colour t = terminal_writechar c colour t.
Proof.
  unfold terminal_writechar. cbn [Nat.add terminal_writechar_depth].
  destruct (c =? 10); [reflexivity|]. destruct (c =? 8); [|reflexivity].
  unfold terminal_backspace_with.
  destruct ((terminal_row t =? 0) && (terminal_col t =? 0)); [reflexivity|].
  cbv zeta. destruct n; reflexivity.
Qed.

Lemma terminal_writechar_returns (c colour : Z) (t : terminal) :
  exists l t', performs l (terminal_writechar c colour t) t' /\
               (List.length l <= 1)%nat /\ Forall (fun e => is_store16 e = true) l.
Proof.
  rewrite terminal_writechar_eq.
  destruct (c =? 10).
  { eexists [], _. split; [reflexivity|]. split; [simpl; lia | constructor]. }
  assert (Hput : forall c colour t,
            performs [store16 (video_mem t + 2 * cursor_cell t) (terminal_make_char c colour)]
              (terminal_putchar (terminal_col t) (terminal_row t) c colour t;;
               let t := set_terminal_col (uint16 (terminal_col t + 1)) t in
               let t :=
                 if VGA_WIDTH <=? terminal_col t
                 then set_terminal_row (uint16 (terminal_row t + 1)) (set_terminal_col 0 t)
                 else t in
               let t := if VGA_HEIGHT <=? terminal_row t then set_terminal_row 0 t else t in
               Ret t) (advance_cursor t)).
  { intros c0 colour0 t0. cbv zeta. rewrite advance_cursor_eq. apply performs_call_ret. }
  destruct (c =? 8).
  2:{ eexists _, _. split; [apply Hput|]. split; [simpl; lia | repeat constructor]. }
  rewrite terminal_backspace_eq.
  destruct ((terminal_row t =? 0) && (terminal_col t =? 0)).
  { eexists [], _. split; [reflexivity|]. split; [simpl; lia | constructor]. }
  cbv zeta.
  match goal with
  | |- context [terminal_writechar 32 15 ?t1] =>
      pose proof (Hput 32 15 t1) as Hperf;
      rewrite (terminal_writechar_eq 32 15 t1)
  end.
  change (32 =? 10) with false. change (32 =? 8) with false. cbv iota.
  eexists [_], _. split; [apply (performs_bind [_] [] _ _ _ _ Hperf), performs_ret|].
  split; [simpl; lia | repeat constructor].
Qed.

Lemma terminal_writechars_returns (cs : list Z) (colour : Z) (t : terminal) :
  exists l t', performs l (terminal_writechars cs colour t) t' /\
               (List.length l <= List.length cs)%nat /\
               Forall (fun e => is_store16 e = true) l.
Proof.
  revert t. induction cs as [|c cs IH]; intros t.
  - exists [], t. split; [reflexivity|]. split; [simpl; lia | constructor].
  - destruct (terminal_writechar_returns c colour t) as (l1 & t1 & H1 & Hlen1 & Hs1).
    destruct (IH t1) as (l2 & t2 & H2 & Hlen2 & Hs2).
    exists (l1 ++ l2), t2. split; [|split].
    + cbn [terminal_writechars]. eapply performs_bind; eassumption.
    + rewrite length_app. cbn [List.length]. lia.
    + apply Forall_app. split; assumption.
Qed.

Lemma print_returns (str : string) (t : terminal) :
  exists l t', performs l (print str t) t' /\
               (List.length l <= List.length (c_string str))%nat /\
               Forall (fun e => is_store16 e = true) l.
Proof.
  destruct (terminal_writechars_returns (c_string str) TERMINAL_COLOUR t)
    as (l & t' & Hperf & Hlen & Hstores).
  exists l, t'. split; [|split; assumption].
  apply (performs_eq_itree _ _ _ _ (symmetry (print_writechars str t))), Hperf.
Qed.

(** X10. Whatever the string and wherever the cursor is, on the screen
    or not, [print] returns, after at most one store through [video_mem]
    for each character before the first NUL and no other effect.  A
    [terminal_writechar] that is unfolded deeper than its two levels is
    the same program: the chain of calls between [terminal_writechar] and
    [terminal_backspace] always ends at the space that 0x08 writes. *)
Theorem console_output_always_returns (str : string) (t : terminal) :
  (exists l t', performs l (print str t) t' /\
     (List.length l <= List.length (c_string str))%nat /\
     Forall (fun e => is_store16 e = true) l) /\
  (forall (c colour : Z) (n : nat),
     terminal_writechar_depth (2 + n) c colour t = terminal_writechar c colour t).
Proof.
  split; [apply print_returns|].
  intros c colour n. apply terminal_writechar_depth_enough.
Qed.

(** ** kernel.h: status values in pointers *)

(** X2. A status that is cast to a pointer with [ERROR] and back with
    [ERROR_I] is the status again; [ISERR] tells the pointers of the
    negative statuses from those of 0 and the positive ones, and only
    status 0 gives the null pointer. *)
Theorem ERROR_round_trip (value : Z) :
  INT_MIN <= value <= INT_MAX ->
  ERROR_I (ERROR value) = value /\
  ISERR (ERROR value) = (value <? 0) /\
  (ERROR value = 0 <-> value = 0).
Proof.
  unfold ERROR_I, ISERR, ERROR, int_cast, INT_MIN, INT_MAX. intros Hrange.
  rewrite Z.mod_mod by discriminate.
  change (2 ^ 32) with 4294967296 in *. change (2 ^ 31) with 2147483648 in *.
  assert (Hcast : (if value mod 4294967296 <? 2147483648
                   then value mod 4294967296
                   else value mod 4294967296 - 4294967296) = value).
  { destruct (Z.ltb_spec (value mod 4294967296) 2147483648);
      Z.div_mod_to_equations; lia. }
  rewrite Hcast. split; [reflexivity|]. split; [reflexivity|].
  Z.div_mod_to_equations; lia.
Qed.

Lemma ERROR_round_trip_witness :
  INT_MIN <= -6 <= INT_MAX /\
  ERROR (-6) = 0xFFFFFFFA /\ ERROR_I (ERROR (-6)) = -6 /\ ISERR (ERROR (-6)) = true.
Proof.
  split; [unfold INT_MIN, INT_MAX; lia|]. split; [reflexivity|].
  destruct (ERROR_round_trip (-6)) as (Hint & Herr & _);
    [unfold INT_MIN, INT_MAX; lia|].
  split; [exact Hint | exact Herr].
Defined.


(** ** Runs that hang *)

Lemma steps_add {R} (n1 n2 : nat) (c : config R) :
  steps (n1 + n2) c = steps n2 (steps n1 c).
Proof. unfold steps. rewrite Nat.add_comm. apply Nat.iter_add. Qed.

Lemma hangs_spin {R} (m : machine) : hangs (ITree.spin : itree kernelE R, m).
Proof. exists ITree.spin. split; reflexivity. Qed.

Lemma hangs_spin_bind {A R} (k : A -> itree kernelE R) (m : machine) :
  hangs (ITree.spin ≫= k, m).
Proof. exists (ITree.spin ≫= k). split; reflexivity. Qed.

Lemma hangs_same_node {R} (c1 c2 : config R) : same_node c1 c2 -> hangs c2 -> hangs c1.
Proof. intros [Hobs _] (t' & H1 & H2). exists t'. rewrite Hobs. auto. Qed.

(** A run that has come to hang never returns, and its machine stays as
    it is. *)
Lemma steps_hangs {R} (c0 : config R) (N : nat) :
  hangs (steps N c0) ->
  forall n, (N <= n)%nat ->
    returned (steps n c0) = None /\ (steps n c0).2 = (steps N c0).2.
Proof.
  intros (t' & Hobs & Hloop) n Hn.
  assert (Hstep : forall m, step (t', m) = (t', m))
    by (intros m; unfold step; rewrite Hloop; reflexivity).
  assert (Hfix : forall j m, steps j (t', m) = (t', m)).
  { intros j m. induction j as [|j IH]; [reflexivity|].
    rewrite steps_succ_first, Hstep. exact IH. }
  replace n with (N + (n - N))%nat by lia. rewrite steps_add.
  destruct (steps N c0) as [t m] eqn:Hc. cbn [fst snd] in *.
  assert (Hfirst : step (t, m) = (t', m))
    by (unfold step; rewrite Hobs; reflexivity).
  destruct (n - N)%nat as [|j].
  - split; [|reflexivity]. unfold returned. cbn. rewrite Hobs. reflexivity.
  - rewrite steps_succ_first, Hfirst, Hfix.
    split; [|reflexivity]. unfold returned. cbn. rewrite Hloop. reflexivity.
Qed.

Lemma hangs_call {R} (e : effect) (k : answer e -> itree kernelE R) (m : machine) (n : nat) :
  hangs (steps n (k (perform e m).1, (perform e m).2)) ->
  hangs (steps (S n) (call e ≫= k, m)).
Proof.
  apply hangs_same_node. rewrite steps_succ_first.
  apply (steps_same_node n). unfold step. cbn. destruct (perform e m). split; reflexivity.
Qed.

Lemma hangs_ret {A R} (a : A) (k : A -> itree kernelE R) (m : machine) (n : nat) :
  hangs (steps n (k a, m)) -> hangs (steps n (Ret a ≫= k, m)).
Proof. apply hangs_same_node, (steps_same_node n). split; reflexivity. Qed.

Lemma hangs_performs {A R} (l : list effect) (t : itree kernelE A) (a : A)
    (k : A -> itree kernelE R) (m : machine) (n : nat) :
  performs l t a ->
  hangs (steps n (k a, perform_all l m)) ->
  hangs (steps (List.length l + n) (t ≫= k, m)).
Proof.
  intros Hperf. apply hangs_same_node. rewrite steps_add.
  apply (steps_same_node n), performs_steps_bind, Hperf.
Qed.

Lemma hangs_panic {R} (l : list effect) (msg : string) (t t' : terminal)
    (k : terminal -> itree kernelE R) (m : machine) :
  performs l (print msg t) t' ->
  hangs (steps (List.length l) (panic msg t ≫= k, m)).
Proof.
  intros Hperf.
  apply (hangs_same_node _ _
           (performs_steps_bind2 l _ _ (fun _ => ITree.spin) k m Hperf)).
  apply hangs_spin_bind.
Qed.

(** A run returns a leaf of its program. *)
Lemma returned_Leaf {R} (n : nat) (t : itree kernelE R) (m : machine) (r : R) :
  returned (steps n (t, m)) = Some r -> Leaf r t.
Proof.
  revert t m. induction n as [|n IH]; intros t m.
  - unfold returned. cbn. destruct (observe t) eqn:Hobs; try discriminate.
    intros [= ->]. apply LeafRet, Hobs.
  - rewrite steps_succ_first. unfold step.
    destruct (observe t) as [r0 | t' | X ev k] eqn:Hobs.
    + apply IH.
    + intros H. eapply LeafTau; [exact Hobs | exact (IH _ _ H)].
    + destruct ev as [e]. destruct (perform e m) as [a m'].
      intros H. eapply LeafVis; [exact Hobs | exact (IH _ _ H)].
Qed.

Lemma never_returned {R} (t : itree kernelE R) :
  (forall r, ~ Leaf r t) -> forall n m, returned (steps n (t, m)) = None.
Proof.
  intros Hleaf n m. destruct (returned (steps n (t, m))) as [r|] eqn:H; [|reflexivity].
  destruct (Hleaf r (returned_Leaf n t m r H)).
Qed.

(** What comes after a program that never returns does not run. *)
Lemma steps_bind_running {A R} (t : itree kernelE A) (k : A -> itree kernelE R)
    (n : nat) (m : machine) :
  (forall a, ~ Leaf a t) ->
  steps n (t ≫= k, m) = ((steps n (t, m)).1 ≫= k, (steps n (t, m)).2).
Proof.
  revert t m. induction n as [|n IH]; intros t m Hleaf; [reflexivity|].
  rewrite !steps_succ_first.
  assert (Hstep : step (t ≫= k, m) = ((step (t, m)).1 ≫= k, (step (t, m)).2) /\
                  forall a, ~ Leaf a (step (t, m)).1).
  { unfold step. rewrite observe_mbind.
    destruct (observe t) as [r0 | t' | X ev h] eqn:Hobs.
    - destruct (Hleaf r0 (LeafRet _ _ Hobs)).
    - split; [reflexivity|]. intros a Ha. apply (Hleaf a). eapply LeafTau; eassumption.
    - destruct ev as [e]. destruct (perform e m) as [x m']. split; [reflexivity|].
      intros a Ha. apply (Hleaf a). eapply LeafVis; eassumption. }
  destruct Hstep as [Hstep Hleaf']. rewrite Hstep.
  destruct (step (t, m)) as [t1 m1]. apply IH, Hleaf'.
Qed.

(** ** kernel.asm: [kernel_registers] and [_start] *)

(** X11. [kernel_registers] loads 0x10 into DS, ES, GS and FS, in this
    order, and returns with 0x10 in AX; the high word of EAX, EBP and
    ESP are as they were. *)
Theorem kernel_registers_clobbers_ax_only (r : registers) :
  exists r',
    performs [mov_sreg DS 0x10; mov_sreg ES 0x10; mov_sreg GS 0x10; mov_sreg FS 0x10]
             (kernel_registers r) r' /\
    ax r' = 0x10 /\ eax r' / 2 ^ 16 = eax r / 2 ^ 16 /\
    ebp r' = ebp r /\ esp r' = esp r.
Proof.
  exists (mov_ax 0x10 r). split.
  - unfold kernel_registers, mov_sreg_ax. cbv zeta. rewrite ax_mov_ax.
    change (uint16 16) with 16.
    repeat (apply performs_call_bind; intros _). reflexivity.
  - rewrite ax_mov_ax. split; [reflexivity|].
    destruct r as [e b s]. unfold mov_ax, set_eax, ax, uint16. cbn.
    split; [|split; reflexivity].
    change (2 ^ 16) with 65536. Z.div_mod_to_equations; lia.
Qed.

Lemma _start_never_returns (tss_address sizeof_tss : Z) (k r : kernel) :
  ~ Leaf r (_start tss_address sizeof_tss k).
Proof.
  unfold _start, _start_calling. cbv zeta. intros H.
  repeat (apply Leaf_mbind_inv in H; destruct H as [? H]).
  exact (spin_empty_Leaf _ _ _ H).
Qed.

(** X12. Neither [kernel_main] nor [_start] returns, whatever the
    registers and the globals are at their entry and whatever the other
    modules answer: every path of [kernel_main] ends in [panic] or in
    its own loop, and [_start] ends in [jmp $].  So no run of them on
    any machine has returned, however long it is. *)
Theorem kernel_never_returns (tss_address sizeof_tss : Z) (k r : kernel) :
  ~ Leaf r (kernel_main tss_address sizeof_tss k) /\
  ~ Leaf r (_start tss_address sizeof_tss k) /\
  (forall (m : machine) (n : nat),
     returned (steps n (kernel_main tss_address sizeof_tss k, m)) = None /\
     returned (steps n (_start tss_address sizeof_tss k, m)) = None).
Proof.
  split; [apply kernel_main_never_returns|]. split; [apply _start_never_returns|].
  intros m n. split; apply never_returned; intros r'.
  - apply kernel_main_never_returns.
  - apply _start_never_returns.
Qed.



Lemma _start_reaches_kernel_main (tss_address sizeof_tss : Z) (k k' : kernel) (m : machine) :
  same_node (steps 9 (_start tss_address sizeof_tss k, m))
            (kernel_main tss_address sizeof_tss k';; ITree.spin,
             (steps 9 (_start tss_address sizeof_tss k, m)).2).
Proof.
  split; [|reflexivity]. unfold _start. cbv zeta. unfold mov_sreg_ax, out_al.
  reflexivity.
Qed.

Lemma steps_call {R} (e : effect) (k : answer e -> itree kernelE R) (m : machine) (n : nat) :
  same_node (steps (S n) (call e ≫= k, m)) (steps n (k (perform e m).1, (perform e m).2)).
Proof.
  rewrite steps_succ_first.
  apply (steps_same_node n). unfold step. cbn. destruct (perform e m). split; reflexivity.
Qed.

Lemma _start_entry_machine (tss_address sizeof_tss : Z) (k : kernel) (m : machine) :
  (steps 9 (_start tss_address sizeof_tss k, m)).2 = perform_all entry_effects m.
Proof.
  unfold _start, _start_calling, mov_sreg_ax, out_al. cbv zeta. rewrite !ax_mov_ax, !al_mov_al.
  change (uint16 DATA_SEG) with 16.
  change (uint8 17) with 17. change (uint8 32) with 32.
  change (uint8 4) with 4. change (uint8 1) with 1.
  generalize (kernel_main tss_address sizeof_tss). intros rest.
  do 9 (match goal with
        | |- (steps (S ?n) (call ?e ≫= ?k, ?m)).2 = _ =>
            etransitivity; [exact (proj2 (steps_call e k m n))|]
        end; cbv beta).
  reflexivity.
Qed.

Lemma _start_then_kernel_main (tss_address sizeof_tss : Z) (k k0 : kernel)
    (m : machine) (n : nat) :
  (steps (9 + n) (_start tss_address sizeof_tss k, m)).2 =
    (steps n (kernel_main tss_address sizeof_tss k0, perform_all entry_effects m)).2.
Proof.
  rewrite steps_add.
  pose proof (_start_reaches_kernel_main tss_address sizeof_tss k k0 m) as Hnode.
  apply (steps_same_node n) in Hnode. rewrite (proj2 Hnode).
  rewrite steps_bind_running by (intros a; apply kernel_main_never_returns).
  rewrite _start_entry_machine. reflexivity.
Qed.

(** X14. A run of [_start] is its nine instructions that have an effect
    and then the run of [kernel_main]: the nine steps do to the machine
    what the five loads of segment registers and the four port writes
    do, from then on the machine is the one that [kernel_main] makes of
    it, and the final [jmp $] is never reached. *)
Theorem _start_runs_kernel_main (tss_address sizeof_tss : Z) (k k0 : kernel)
    (m : machine) (n : nat) :
  (steps 9 (_start tss_address sizeof_tss k, m)).2 = perform_all entry_effects m /\
  (steps (9 + n) (_start tss_address sizeof_tss k, m)).2 =
    (steps n (kernel_main tss_address sizeof_tss k0, perform_all entry_effects m)).2 /\
  returned (steps (9 + n) (_start tss_address sizeof_tss k, m)) = None.
Proof.
  split; [apply _start_entry_machine|]. split; [apply _start_then_kernel_main|].
  apply never_returned. intros r. apply _start_never_returns.
Qed.

(** The cells of the whole screen, compared by evaluation. *)
Ltac screen_by_evaluation cell Hcell :=
  match goal with
  | |- ram ?m !! cell_address cell = Some (screen_rows ?rows cell) =>
      let Hall := fresh "Hall" in
      let Hin := fresh "Hin" in
      assert (Hall :
        let cells := ram m in
        List.forallb
          (fun cell => bool_decide (cells !! cell_address cell = Some (screen_rows rows cell)))
          (seqZ 0 1600) = true) by (vm_compute; reflexivity);
      cbv zeta in Hall; rewrite forallb_forall in Hall;
      assert (Hin : In cell (seqZ 0 1600))
        by (apply list_elem_of_In, elem_of_seqZ;
            unfold VGA_WIDTH, VGA_HEIGHT in Hcell; lia);
      apply Hall in Hin; apply bool_decide_eq_true in Hin; exact Hin
  end.

(** X18. The machine at the hand-over to user mode.  From [_start] at
    power on, with any registers and globals and with both loads
    successful, the step number 1654 is the call of
    [task_run_first_ever_task].  At that point the five segment
    registers hold 0x10, [tss] has the kernel stack 0x600000 and the
    kernel data selector, the task register holds 0x28, CR3 the chunk of
    [paging_new_4gb], the interrupt flag is as it was at power on, the
    two processes are loaded with their arguments, the second one is the
    current one, and the screen shows the welcome line in its first row
    and spaces everywhere else. *)
Theorem handoff_to_user_mode (tss_address sizeof_tss : Z) (k : kernel)
    (selectors : segment_registers) (interrupts : bool)
    (stack : struct_command_argument) (chunk : Z) (rest : list Z) (cell : Z) :
  0 <= cell < VGA_WIDTH * VGA_HEIGHT ->
  let c := steps 1654 (_start tss_address sizeof_tss k,
                       power_on selectors interrupts stack chunk
                                (PEACHOS_ALL_OK :: PEACHOS_ALL_OK :: rest)) in
  last (trace c.2) = Some task_run_first_ever_task /\
  enters_user_mode (removelast (trace c.2)) = false /\
  segments c.2 =
    {| ds := DATA_SEG; es := DATA_SEG; fs := DATA_SEG; gs := DATA_SEG; ss := DATA_SEG |} /\
  tss c.2 = {| esp0 := 0x600000; ss0 := KERNEL_DATA_SELECTOR |} /\
  task_register c.2 = 0x28 /\
  cr3 c.2 = chunk /\
  interrupt_flag c.2 = interrupts /\
  processes c.2 =
    [ {| filename := "0:/blank.elf"; program_arguments := ["Testing!"%string] |};
      {| filename := "0:/blank.elf"; program_arguments := ["Abc!"%string] |} ] /\
  current_process c.2 = Some 1%nat /\
  ram c.2 !! cell_address cell = Some (screen_rows ["Welcome to PeachOS!"%string] cell).
Proof.
  intros Hcell c. subst c. change 1654%nat with (9 + 1645)%nat.
  rewrite (_start_then_kernel_main tss_address sizeof_tss k k).
  split; [vm_compute; reflexivity|]. split; [vm_compute; reflexivity|].
  split; [vm_compute; reflexivity|]. split; [vm_compute; reflexivity|].
  split; [vm_compute; reflexivity|]. split; [vm_compute; reflexivity|].
  split; [vm_compute; reflexivity|]. split; [vm_compute; reflexivity|].
  split; [vm_compute; reflexivity|].
  screen_by_evaluation cell Hcell.
Qed.

Lemma handoff_to_user_mode_witness :
  0 <= 0 < VGA_WIDTH * VGA_HEIGHT /\
  ram (steps 1654
         (_start 0x105000 104 (kernel_image {| eax := 0; ebp := 0; esp := 0 |}),
          power_on {| ds := 0; es := 0; fs := 0; gs := 0; ss := 0 |} true
                   {| argument := []; next := 0 |} 0x1000000
                   [PEACHOS_ALL_OK; PEACHOS_ALL_OK])).2
    !! cell_address 0 = Some 0x0F57.
Proof.
  split; [unfold VGA_WIDTH, VGA_HEIGHT; lia|].
  apply (handoff_to_user_mode 0x105000 104
           (kernel_image {| eax := 0; ebp := 0; esp := 0 |})
           {| ds := 0; es := 0; fs := 0; gs := 0; ss := 0 |} true
           {| argument := []; next := 0 |} 0x1000000 [] 0).
  unfold VGA_WIDTH, VGA_HEIGHT. lia.
Defined.

(** ** [panic] *)

(** X15. [panic] does what [print] does with the message and nothing
    more: after at most one store through [video_mem] for each character
    of the message it has not returned and never will, and the machine
    stays as [print] left it.  This holds for every message, cursor and
    machine. *)
Theorem panic_hangs_after_message (msg : string) (t : terminal) (m : machine) :
  exists l t',
    performs l (print msg t) t' /\
    (List.length l <= List.length (c_string msg))%nat /\
    Forall (fun e => is_store16 e = true) l /\
    forall n, (List.length l <= n)%nat ->
      returned (steps n (panic msg t, m)) = None /\
      (steps n (panic msg t, m)).2 = perform_all l m /\
      trace (steps n (panic msg t, m)).2 = trace m ++ l.
Proof.
  destruct (print_returns msg t) as (l & t' & Hperf & Hlen & Hstores).
  exists l, t'. split; [exact Hperf|]. split; [exact Hlen|]. split; [exact Hstores|].
  intros n Hn.
  assert (Hnode : same_node (steps (List.length l) (panic msg t, m))
                            (ITree.spin, perform_all l m))
    by exact (performs_steps_bind l _ _ (fun _ => ITree.spin) m Hperf).
  destruct (steps_hangs (panic msg t, m) (List.length l)
              (hangs_same_node _ _ Hnode (hangs_spin _)) n Hn) as [Hret Hm].
  destruct Hnode as [_ Hl]. cbn [snd] in Hl.
  rewrite Hret, Hm, Hl, trace_perform_all. auto.
Qed.

Lemma welcome_performs :
  performs (shown_at 0 0 "Welcome to PeachOS!")
           (print (line "Welcome to PeachOS!") origin)
           {| video_mem := 0xB8000; terminal_row := 1; terminal_col := 0 |}.
Proof.
  apply (print_line_performs "Welcome to PeachOS!" origin).
  - simpl. repeat constructor; discriminate.
  - reflexivity.
  - unfold on_screen, origin, VGA_WIDTH, VGA_HEIGHT. cbn. lia.
  - reflexivity.
Qed.

Lemma failed_message_performs :
  performs (shown_at 1 0 "Failed to load blank.elf")
           (print (line "Failed to load blank.elf")
                  {| video_mem := 0xB8000; terminal_row := 1; terminal_col := 0 |})
           {| video_mem := 0xB8000; terminal_row := 2; terminal_col := 0 |}.
Proof.
  apply (print_line_performs "Failed to load blank.elf"
           {| video_mem := 0xB8000; terminal_row := 1; terminal_col := 0 |}).
  - simpl. repeat constructor; discriminate.
  - reflexivity.
  - unfold on_screen, VGA_WIDTH, VGA_HEIGHT. cbn. lia.
  - reflexivity.
Qed.

(** ** Loads that fail *)

(** The answer of the next load, by evaluation on the machine at hand. *)
Ltac answer_of_load :=
  match goal with
  | |- context [perform (process_load_switch ?f) ?M] =>
      let a := eval vm_compute in (perform (process_load_switch f) M).1 in
      let H := fresh in
      assert (H : (perform (process_load_switch f) M).1 = a) by (vm_compute; reflexivity);
      rewrite H; clear H
  end.

(** With the first load successful and the second one failed,
    [kernel_main] hangs after 1665 effects, in the second [panic]. *)
Lemma second_failed_boot_hangs (tss_address sizeof_tss : Z) (r : registers)
    (selectors : segment_registers) (interrupts : bool)
    (stack : struct_command_argument) (chunk status : Z) (rest : list Z) :
  status <> PEACHOS_ALL_OK ->
  hangs (steps 1665 (boot tss_address sizeof_tss r selectors interrupts stack chunk
                       (PEACHOS_ALL_OK :: status :: rest))).
Proof.
  intros Hstatus. unfold boot, kernel_main.
  apply (hangs_performs screen_clear _ origin _ _ 65); [apply terminal_initialize_performs|].
  do 4 apply hangs_call.
  apply (hangs_performs _ _ _ _ _ 42 welcome_performs).
  do 7 apply hangs_call.
  apply (hangs_call (paging_new_4gb _)). do 4 apply hangs_call.
  apply (hangs_call (process_load_switch _)).
  answer_of_load. cbv beta iota zeta. change (negb (0 =? PEACHOS_ALL_OK)) with false.
  cbv iota. apply hangs_ret. do 4 apply hangs_call.
  apply (hangs_call (process_load_switch _)).
  destruct status as [|p|p]; [contradiction| |].
  all: answer_of_load; cbv beta iota zeta.
  - change (negb (Z.pos p =? PEACHOS_ALL_OK)) with true. cbv iota.
    apply (hangs_panic (shown_at 1 0 "Failed to load blank.elf") _ _ _ _ _
             failed_message_performs).
  - change (negb (Z.neg p =? PEACHOS_ALL_OK)) with true. cbv iota.
    apply (hangs_panic (shown_at 1 0 "Failed to load blank.elf") _ _ _ _ _
             failed_message_performs).
Qed.

Lemma second_failed_boot_stuck (tss_address sizeof_tss : Z) (r : registers)
    (selectors : segment_registers) (interrupts : bool)
    (stack : struct_command_argument) (chunk status : Z) (rest : list Z) (n : nat) :
  status <> PEACHOS_ALL_OK ->
  (1665 <= n)%nat ->
  returned (steps n (boot tss_address sizeof_tss r selectors interrupts stack chunk
                       (PEACHOS_ALL_OK :: status :: rest))) = None /\
  (steps n (boot tss_address sizeof_tss r selectors interrupts stack chunk
              (PEACHOS_ALL_OK :: status :: rest))).2 =
  (steps 1665 (boot tss_address sizeof_tss r selectors interrupts stack chunk
                 (PEACHOS_ALL_OK :: status :: rest))).2.
Proof.
  intros Hstatus. apply steps_hangs, second_failed_boot_hangs, Hstatus.
Qed.

(** X16. When the first load of "0:/blank.elf" succeeds and the second
    one gives a status other than [PEACHOS_ALL_OK], [kernel_main] ends
    in its second [panic]: after the failed load come the cells of the
    message, on the row under the welcome line, and nothing else.  The
    first process stays loaded, with its argument "Testing!", and it is
    the current one; the kernel has not returned and has not left for
    user mode. *)
Theorem second_failed_load_panics (tss_address sizeof_tss : Z) (r : registers)
    (selectors : segment_registers) (interrupts : bool)
    (stack : struct_command_argument) (chunk status : Z)
    (rest : list Z) (n : nat) :
  status <> PEACHOS_ALL_OK ->
  (1665 <= n)%nat ->
  let c := steps n (boot tss_address sizeof_tss r selectors interrupts stack chunk
                      (PEACHOS_ALL_OK :: status :: rest)) in
  returned c = None /\
  drop 1636 (trace c.2) =
    [ memset Argument 0; strcpy Argument "Testing!"; store_field argument_next 0;
      process_inject_arguments (Some 0%nat) Argument;
      process_load_switch "0:/blank.elf" ] ++
    shown_at 1 0 "Failed to load blank.elf" /\
  processes c.2 =
    [ {| filename := "0:/blank.elf"; program_arguments := ["Testing!"%string] |} ] /\
  current_process c.2 = Some 0%nat /\
  enters_user_mode (trace c.2) = false.
Proof.
  intros Hstatus Hn c. subst c.
  destruct (second_failed_boot_stuck tss_address sizeof_tss r selectors interrupts
              stack chunk status rest n Hstatus Hn) as [Hret Hm].
  rewrite Hret, Hm. split; [reflexivity|].
  destruct status as [|p|p]; [contradiction| |];
    (split; [vm_compute; reflexivity|]);
    (split; [vm_compute; reflexivity|]); split; vm_compute; reflexivity.
Qed.

Lemma second_failed_load_panics_witness :
  -2 <> PEACHOS_ALL_OK /\ (1665 <= 1700)%nat /\
  processes
    (steps 1700
       (boot 0x105000 104
             {| eax := 0; ebp := 0; esp := 0 |}
             {| ds := 0; es := 0; fs := 0; gs := 0; ss := 0 |}
             true {| argument := []; next := 0 |} 0x1000000
             [PEACHOS_ALL_OK; -2])).2 =
    [ {| filename := "0:/blank.elf"; program_arguments := ["Testing!"%string] |} ].
Proof.
  split; [discriminate|]. split; [lia|].
  apply (second_failed_load_panics 0x105000 104
           {| eax := 0; ebp := 0; esp := 0 |}
           {| ds := 0; es := 0; fs := 0; gs := 0; ss := 0 |}
           true {| argument := []; next := 0 |} 0x1000000 (-2) [] 1700);
    [discriminate | lia].
Defined.

(** The trace of a run only grows. *)
Lemma trace_step {R} (c : config R) : exists l, trace (step c).2 = trace c.2 ++ l.
Proof.
  destruct c as [t m]. unfold step.
  destruct (observe t) as [r | t' | X ev k]; try (exists []; symmetry; apply app_nil_r).
  destruct ev as [e]. exists [e].
  pose proof (trace_perform e m) as H. destruct (perform e m). exact H.
Qed.

Lemma trace_steps {R} (n : nat) (c : config R) :
  exists l, trace (steps n c).2 = trace c.2 ++ l.
Proof.
  revert c. induction n as [|n IH]; intros c.
  - exists []. symmetry. apply app_nil_r.
  - rewrite steps_succ_first. destruct (IH (step c)) as [l2 H2].
    destruct (trace_step c) as [l1 H1]. exists (l1 ++ l2).
    rewrite H2, H1, app_assoc. reflexivity.
Qed.

Lemma enters_user_mode_later {R} (n n' : nat) (c : config R) :
  (n <= n')%nat ->
  enters_user_mode (trace (steps n c).2) = true ->
  enters_user_mode (trace (steps n' c).2) = true.
Proof.
  intros Hn H. replace n' with (n + (n' - n))%nat by lia. rewrite steps_add.
  destruct (trace_steps (n' - n) (steps n c)) as [l Hl]. rewrite Hl.
  unfold enters_user_mode in *. rewrite existsb_app, H. reflexivity.
Qed.

Lemma boot_enters_user_mode (tss_address sizeof_tss : Z) (r : registers)
    (selectors : segment_registers) (interrupts : bool)
    (stack : struct_command_argument) (chunk : Z) (loads : list Z) :
  hd PEACHOS_ALL_OK loads = PEACHOS_ALL_OK ->
  hd PEACHOS_ALL_OK (tl loads) = PEACHOS_ALL_OK ->
  enters_user_mode
    (trace (steps 1644 (boot tss_address sizeof_tss r selectors interrupts stack chunk
                          loads)).2) = false /\
  enters_user_mode
    (trace (steps 1645 (boot tss_address sizeof_tss r selectors interrupts stack chunk
                          loads)).2) = true.
Proof.
  destruct loads as [|s1 [|s2 rest]]; cbn [hd tl]; unfold PEACHOS_ALL_OK.
  - intros _ _. split; vm_compute; reflexivity.
  - intros -> _. split; vm_compute; reflexivity.
  - intros -> ->. split; vm_compute; reflexivity.
Qed.

Lemma failed_loads_cases (loads : list Z) :
  hd PEACHOS_ALL_OK loads <> PEACHOS_ALL_OK \/
  hd PEACHOS_ALL_OK (tl loads) <> PEACHOS_ALL_OK ->
  (exists s1 rest, loads = s1 :: rest /\ s1 <> PEACHOS_ALL_OK) \/
  (exists s2 rest, s2 <> PEACHOS_ALL_OK /\ loads = PEACHOS_ALL_OK :: s2 :: rest).
Proof.
  intros Hfail. destruct loads as [|s1 [|s2 rest]]; cbn [hd tl] in Hfail.
  - destruct Hfail as [H | H]; contradiction.
  - destruct Hfail as [H | H]; [left; eauto | contradiction].
  - destruct (Z.eq_dec s1 PEACHOS_ALL_OK) as [-> | Hs1]; [|left; eauto].
    destruct Hfail as [H | H]; [contradiction | right; eauto].
Qed.

Lemma boot_stays_in_kernel (tss_address sizeof_tss : Z) (r : registers)
    (selectors : segment_registers) (interrupts : bool)
    (stack : struct_command_argument) (chunk : Z) (loads : list Z) (n : nat) :
  hd PEACHOS_ALL_OK loads <> PEACHOS_ALL_OK \/
  hd PEACHOS_ALL_OK (tl loads) <> PEACHOS_ALL_OK ->
  enters_user_mode
    (trace (steps n (boot tss_address sizeof_tss r selectors interrupts stack chunk
                       loads)).2) = false.
Proof.
  intros Hfail. apply not_true_is_false. intros Hin.
  destruct (failed_loads_cases loads Hfail)
    as [(s1 & rest & -> & Hs1) | (s2 & rest & Hs2 & ->)].
  - apply (enters_user_mode_later n (Nat.max n 1661)) in Hin; [|lia].
    rewrite failed_boot_run in Hin by (assumption || lia).
    destruct s1 as [|p|p]; [contradiction| |]; vm_compute in Hin; discriminate Hin.
  - apply (enters_user_mode_later n (Nat.max n 1665)) in Hin; [|lia].
    destruct (second_failed_boot_stuck tss_address sizeof_tss r selectors interrupts
                stack chunk s2 rest (Nat.max n 1665) Hs2 ltac:(lia)) as [_ Hm].
    rewrite Hm in Hin.
    destruct s2 as [|p|p]; [contradiction| |]; vm_compute in Hin; discriminate Hin.
Qed.

(** X17. [kernel_main] calls [task_run_first_ever_task] exactly when
    both loads of "0:/blank.elf" have succeeded, and then as its effect
    number 1645.  After a load that failed it never leaves for user
    mode, however long it runs. *)
Theorem user_mode_iff_both_loads_succeed (tss_address sizeof_tss : Z) (r : registers)
    (selectors : segment_registers) (interrupts : bool)
    (stack : struct_command_argument) (chunk : Z) (loads : list Z) (n : nat) :
  enters_user_mode
    (trace (steps n (boot tss_address sizeof_tss r selectors interrupts stack chunk
                       loads)).2) = true <->
  (1645 <= n)%nat /\
  hd PEACHOS_ALL_OK loads = PEACHOS_ALL_OK /\
  hd PEACHOS_ALL_OK (tl loads) = PEACHOS_ALL_OK.
Proof.
  split.
  - intros Hin.
    destruct (Z.eq_dec (hd PEACHOS_ALL_OK loads) PEACHOS_ALL_OK) as [H1 | H1];
      [destruct (Z.eq_dec (hd PEACHOS_ALL_OK (tl loads)) PEACHOS_ALL_OK) as [H2 | H2]|].
    + split; [|split; assumption].
      destruct (le_lt_dec 1645 n) as [Hn | Hn]; [exact Hn|].
      apply (enters_user_mode_later n 1644) in Hin; [|lia].
      destruct (boot_enters_user_mode tss_address sizeof_tss r selectors interrupts
                  stack chunk loads H1 H2) as [Hout _].
      rewrite Hout in Hin. discriminate Hin.
    + rewrite boot_stays_in_kernel in Hin by (right; exact H2). discriminate Hin.
    + rewrite boot_stays_in_kernel in Hin by (left; exact H1). discriminate Hin.
  - intros (Hn & H1 & H2). apply (enters_user_mode_later 1645 n); [exact Hn|].
    apply boot_enters_user_mode; assumption.
Qed.

(** X19. The screen after a boot that failed.  When one of the two
    loads of "0:/blank.elf" has given a status other than
    [PEACHOS_ALL_OK], the text buffer shows, from step 1665 on and for
    good, the welcome line in row 0, the message of [panic] in row 1
    and spaces in every other cell. *)
Theorem failed_boot_screen (tss_address sizeof_tss : Z) (r : registers)
    (selectors : segment_registers) (interrupts : bool)
    (stack : struct_command_argument) (chunk : Z) (loads : list Z)
    (n : nat) (cell : Z) :
  hd PEACHOS_ALL_OK loads <> PEACHOS_ALL_OK \/
  hd PEACHOS_ALL_OK (tl loads) <> PEACHOS_ALL_OK ->
  (1665 <= n)%nat ->
  0 <= cell < VGA_WIDTH * VGA_HEIGHT ->
  ram (steps n (boot tss_address sizeof_tss r selectors interrupts stack chunk loads)).2
    !! cell_address cell =
  Some (screen_rows ["Welcome to PeachOS!"; "Failed to load blank.elf"]%string cell).
Proof.
  intros Hfail Hn Hcell.
  destruct (failed_loads_cases loads Hfail)
    as [(s1 & rest & -> & Hs1) | (s2 & rest & Hs2 & ->)].
  - rewrite failed_boot_run by (assumption || lia).
    destruct s1 as [|p|p]; [contradiction| |]; screen_by_evaluation cell Hcell.
  - destruct (second_failed_boot_stuck tss_address sizeof_tss r selectors interrupts
                stack chunk s2 rest n Hs2 Hn) as [_ Hm].
    rewrite Hm.
    destruct s2 as [|p|p]; [contradiction| |]; screen_by_evaluation cell Hcell.
Qed.

Lemma failed_boot_screen_witness :
  (hd PEACHOS_ALL_OK [-1] <> PEACHOS_ALL_OK \/
   hd PEACHOS_ALL_OK (tl [-1]) <> PEACHOS_ALL_OK) /\
  (1665 <= 1700)%nat /\
  0 <= 80 < VGA_WIDTH * VGA_HEIGHT /\
  ram (steps 1700
         (boot 0x105000 104
               {| eax := 0; ebp := 0; esp := 0 |}
               {| ds := 0; es := 0; fs := 0; gs := 0; ss := 0 |}
               true {| argument := []; next := 0 |} 0x1000000 [-1])).2
    !! cell_address 80 = Some 0x0F46.
Proof.
  assert (Hfail : hd PEACHOS_ALL_OK [-1] <> PEACHOS_ALL_OK \/
                  hd PEACHOS_ALL_OK (tl [-1]) <> PEACHOS_ALL_OK)
    by (left; simpl; discriminate).
  assert (Hcell : 0 <= 80 < VGA_WIDTH * VGA_HEIGHT)
    by (unfold VGA_WIDTH, VGA_HEIGHT; lia).
  split; [exact Hfail|]. split; [lia|]. split; [exact Hcell|].
  apply (failed_boot_screen 0x105000 104
           {| eax := 0; ebp := 0; esp := 0 |}
           {| ds := 0; es := 0; fs := 0; gs := 0; ss := 0 |}
           true {| argument := []; next := 0 |} 0x1000000 [-1] 1700 80 Hfail);
    [lia | exact Hcell].
Defined.
